(** * aad-auth-proxy: the request/response forwarding pipeline

    A shallow embedding of [handler/handler.go] and [handler/proxy.go]
    (package [handler]): the availability gate [checkTokenProvider], the
    entry points [ProxyRequest] and [ReadinessCheck], the reverse-proxy hooks
    [modifyRequest], [handleError], [modifyResponse] and the diagnostic body
    logger [logResponse].

    Go values are modelled as follows.
    - [string] is Rocq's [string] (a sequence of bytes), [int]/[int64] are [Z].
    - [error] is the message of the error; a possibly-nil [error] is
      an [option].
    - an interface value that may be nil is an [option].
    - [http.Header] is a finite map from canonical keys to value lists.
    - a [map[string]string] that is ranged over is an association list whose
      order is the order in which this run of [range] visits the entries
      (Go leaves that order unspecified).
    - [io.ReadCloser] is the list of bytes that have not been read yet.
    - tracing, metrics, logging and the calls that leave the package are
      recorded, in order, as a list of [event]s.
    - a run-time panic is an outcome of its own; deferred calls still run. *)

From Stdlib Require Import ZArith Ascii String List Lia.
From stdpp Require Import base option list strings gmap.

Open Scope string_scope.
Open Scope Z_scope.

(** ** Errors *)

Definition error := string.

Module errors.
Definition New (text : string) : error := text.
End errors.

(** ** Package strconv *)

Module strconv.

Inductive NumErr := ErrSyntax | ErrRange.

Definition digit_val (c : ascii) : option Z :=
    let n := Z.of_N (N_of_ascii c) in
    if (48 <=? n) && (n <=? 57) then Some (n - 48) else None.

  (** The digits of an unsigned decimal numeral, most significant first. *)
Fixpoint digits_val (acc : Z) (s : string) : option Z :=
    match s with
    | EmptyString => Some acc
    | String c s' =>
        match digit_val c with
        | Some d => digits_val (acc * 10 + d) s'
        | None => None
        end
    end.

  (** [strconv.ParseInt(s, 10, 32)]: an optional sign, then one or more
      decimal digits; the value must fit a signed 32-bit integer.  On a
      syntax error the value is 0, on a range error it is the nearest bound. *)
Definition ParseInt_10_32 (s : string) : Z * option NumErr :=
    match s with
    | EmptyString => (0, Some ErrSyntax)
    | String c rest =>
        let '(neg, body) :=
          if Ascii.eqb c "+"%char then (false, rest)
          else if Ascii.eqb c "-"%char then (true, rest)
          else (false, s) in
        match body with
        | EmptyString => (0, Some ErrSyntax)
        | _ =>
            match digits_val 0 body with
            | None => (0, Some ErrSyntax)
            | Some un =>
                let cutoff := 2 ^ 31 in
                if negb neg && (cutoff <=? un) then (cutoff - 1, Some ErrRange)
                else if neg && (cutoff <? un) then (- cutoff, Some ErrRange)
                else (if neg then - un else un, None)
            end
        end
    end.

Definition digit_char (d : Z) : ascii := ascii_of_N (Z.to_N (48 + d)).

  (** The decimal digits of [n], least significant digit last; [fuel] bounds
      the number of digits. *)
Fixpoint utoa (fuel : nat) (n : Z) (acc : string) : string :=
    match fuel with
    | O => acc
    | S fuel' =>
        let acc' := String (digit_char (n mod 10)) acc in
        if n <? 10 then acc' else utoa fuel' (n / 10) acc'
    end.

  (** [strconv.Itoa], which is also what [fmt.Sprint] prints for an [int]. *)
Definition Itoa (n : Z) : string :=
    if n <? 0
    then String "-"%char (utoa (S (Z.to_nat (Z.log2 (- n)))) (- n) EmptyString)
    else utoa (S (Z.to_nat (Z.log2 n))) n EmptyString.

End strconv.

(** ** Package net/textproto and [http.Header] *)

Module textproto.

Definition is_lower (c : ascii) : bool :=
    let n := N_of_ascii c in ((97 <=? n) && (n <=? 122))%N.
Definition is_upper (c : ascii) : bool :=
    let n := N_of_ascii c in ((65 <=? n) && (n <=? 90))%N.
Definition is_digit (c : ascii) : bool :=
    let n := N_of_ascii c in ((48 <=? n) && (n <=? 57))%N.

  (** The token characters of RFC 7230. *)
Definition validHeaderFieldByte (c : ascii) : bool :=
    is_lower c || is_upper c || is_digit c ||
    existsb (Ascii.eqb c)
      ["!"; "#"; "$"; "%"; "&"; "'"; "*"; "+"; "-"; "."; "^"; "_"; "`"; "|"; "~"]%char.

Definition to_upper (c : ascii) : ascii :=
    if is_lower c then ascii_of_N (N_of_ascii c - 32) else c.
Definition to_lower (c : ascii) : ascii :=
    if is_upper c then ascii_of_N (N_of_ascii c + 32) else c.

Fixpoint all_valid (s : string) : bool :=
    match s with
    | EmptyString => true
    | String c s' => validHeaderFieldByte c && all_valid s'
    end.

  (** Upper case at the start and after each dash, lower case elsewhere. *)
Fixpoint canon (upper : bool) (s : string) : string :=
    match s with
    | EmptyString => EmptyString
    | String c s' =>
        let c' := if upper then to_upper c else to_lower c in
        String c' (canon (Ascii.eqb c' "-"%char) s')
    end.

  (** [textproto.CanonicalMIMEHeaderKey]: a key holding a byte that is not
      a token character is returned as it is. *)
Definition CanonicalMIMEHeaderKey (s : string) : string :=
    if all_valid s then canon true s else s.

End textproto.

Module Header.

  (** [http.Header], a [map[string][]string]. *)
Abbreviation t := (gmap string (list string)).

Definition Get (h : t) (key : string) : string :=
    match h !! textproto.CanonicalMIMEHeaderKey key with
    | Some (v :: _) => v
    | _ => ""
    end.

Definition Set_ (h : t) (key value : string) : t :=
    <[textproto.CanonicalMIMEHeaderKey key := [value]]> h.

Definition Values (h : t) (key : string) : list string :=
    default [] (h !! textproto.CanonicalMIMEHeaderKey key).

End Header.

(** ** Package constants

    Modelled from the spec: the [constants] package is not among the sources
    at hand.  The header names and metric names are the ones of the external
    interface (section 6 of the specification). *)

Module constants.
Definition SERVICE_TELEMETRY_KEY := "aad-auth-proxy".
Definition HTTPS_SCHEME := "https".
Definition HEADER_AUTHORIZATION := "Authorization".
Definition HEADER_USER_AGENT := "User-Agent".
Definition HEADER_STATUS_CODE := "Status-Code".
Definition HEADER_CONTENT_TYPE := "Content-Type".
Definition HEADER_CONTENT_ENCODING := "Content-Encoding".
Definition HEADER_CONTENT_LENGTH := "Content-Length".
Definition HEADER_REQUEST_ID := "X-Request-ID".
Definition METRIC_REQUESTS_TOTAL := "requests_total".
Definition METRIC_REQUEST_DURATION_MILLISECONDS := "request_duration_milliseconds".
Definition METRIC_REQUEST_BYTES_TOTAL := "request_bytes_total".
Definition METRIC_RESPONSE_BYTES_TOTAL := "response_bytes_total".
End constants.

Module http.
Definition StatusOK := 200.
Definition StatusBadRequest := 400.
Definition StatusServiceUnavailable := 503.
End http.

(** ** Requests, responses, the response writer *)

Record URL := mkURL {
  Scheme : string;
  UHost : string;
  Path : string;
  RawQuery : string }.

(** [context.Context], as far as this package uses it: the spans that are
    open, innermost first. *)
Definition Context := list string.

(** [*http.Request] *)
Record Request := mkRequest {
  RContext : Context;
  Method : string;
  RURL : URL;
  RHost : string;
  RHeader : Header.t;
  RContentLength : Z }.

(** [*http.Response]; [Body] holds the bytes of the body stream that have
    not been read yet. *)
Record Response := mkResponse {
  StatusCode : Z;
  Header_ : Header.t;
  Body : list Byte.byte;
  ContentLength : Z;
  Request_ : Request }.

(** What [FailRequest] answers with: the error-kind tag and the underlying
    error. *)
Record Failure := mkFailure {
  failure_tag : string;
  failure_err : option error }.

(** [http.ResponseWriter]: its header map, the status written so far and the
    body written so far (bytes relayed from the backend, or a uniform
    failure). *)
Record ResponseWriter := mkWriter {
  WHeader : Header.t;
  WStatus : option Z;
  WBody : list Byte.byte;
  WFailure : option Failure }.

(** ** Telemetry and the other effects *)

Inductive Value :=
| VString (s : string)
| VInt (n : Z).

Definition KeyValue : Type := string * Value.

Module attribute.
Definition String_ (k v : string) : KeyValue := (k, VString v).
Definition Int (k : string) (v : Z) : KeyValue := (k, VInt v).
Definition Int64 (k : string) (v : Z) : KeyValue := (k, VInt v).
End attribute.

Inductive event :=
| SpanStart (name : string)
| SpanEnd (name : string)
| SpanSetAttributes (name : string) (attrs : list KeyValue)
| SpanRecordError (name : string) (err : error)
| SpanSetStatusError (name : string) (description : string)
| CounterAdd (instrument : string) (incr : Z) (attrs : list KeyValue)
| HistogramRecord (instrument : string) (value : Z) (attrs : list KeyValue)
| LogErrorln (args : list string)
| LogInfoln (args : list string)
| CallGetAccessToken
| CallFailRequest (statusCode : Z) (tag : string) (err : option error)
| CallWriteHeader (statusCode : Z)
| CallRoundTrip (outreq : Request).

(** How a call ends. *)
Inductive outcome (A : Type) :=
| Returned (a : A)
| Panicked (reason : string).
Arguments Returned {A} a.
Arguments Panicked {A} reason.

(** What a request in flight shares with everything that serves it: the
    number of [GetAccessToken] calls made so far and the response writer. *)
Record World := mkWorld {
  tp_calls : nat;
  writer : ResponseWriter }.

(** A computation yields an outcome, the new world, and the events it
    emitted, oldest first. *)
Definition M (A : Type) : Type := World -> outcome A * World * list event.

Definition ret {A} (a : A) : M A := fun σ => (Returned a, σ, []).

Definition bind {A B} (m : M A) (k : A -> M B) : M B :=
  fun σ =>
    match m σ with
    | (Returned a, σ', es) =>
        let '(r, σ'', es') := k a σ' in (r, σ'', (es ++ es')%list)
    | (Panicked p, σ', es) => (Panicked p, σ', es)
    end.

#[global] Instance M_ret : MRet M := @ret.
#[global] Instance M_bind : MBind M := fun A B k m => bind m k.

Definition emit (e : event) : M unit := fun σ => (Returned tt, σ, [e]).

Definition panic {A} (reason : string) : M A := fun σ => (Panicked reason, σ, []).

Definition get_writer : M ResponseWriter := fun σ => (Returned (writer σ), σ, []).

Definition mod_writer (f : ResponseWriter -> ResponseWriter) : M unit :=
  fun σ => (Returned tt, mkWorld (tp_calls σ) (f (writer σ)), []).

(** [defer d] at the head of a body: [d] runs when the body returns and
    when it panics, and the outcome of the body stands. *)
Definition with_defer {A} (d : M unit) (body : M A) : M A :=
  fun σ =>
    let '(r, σ', es) := body σ in
    let '(_, σ'', es') := d σ' in
    (r, σ'', (es ++ es')%list).

Definition when (b : bool) (m : M unit) : M unit := if b then m else mret tt.

Definition is_nil {A} (o : option A) : bool :=
  match o with None => true | Some _ => false end.

(** ** The collaborators of the package *)

(** [contracts.ITokenProvider]: what the [i]-th call of [GetAccessToken]
    answers. *)
Definition ITokenProvider : Type := nat -> string * option error.

Definition nil_dereference :=
  "runtime error: invalid memory address or nil pointer dereference".

(** A method call on an interface value; on the nil interface it panics. *)
Definition GetAccessToken (tp : option ITokenProvider) : M (string * option error) :=
  match tp with
  | None => panic nil_dereference
  | Some f =>
      fun σ => (Returned (f (tp_calls σ)), mkWorld (S (tp_calls σ)) (writer σ),
                [CallGetAccessToken])
  end.

(** [utils.IConfiguration] *)
Record IConfiguration := mkConfiguration {
  GetTargetHost : string;
  GetAdditionalHeaders : option (list (string * string));
  GetOtelServiceName : string;
  GetOtelEndpoint : string }.

(** [utils.EncoderDecoder]: the body codec.  [Decode] reads from the body
    stream: it yields the decoded bytes or an error, and the part of the
    stream it has left unread. *)
Record EncoderDecoder := mkCodec {
  Decode : string -> list Byte.byte -> (list Byte.byte + error) * list Byte.byte;
  Encode : string -> list Byte.byte -> list Byte.byte + error }.

(** The surroundings of a request: the meter provider, the clock, the codec
    and the backend behind the transport. *)
Record Env := mkEnv {
  Int64Counter : string -> option error;
  Int64Histogram : string -> option error;
  elapsed_ms : Z;
  NewEncoderDecoder : EncoderDecoder;
  url_Parse : string -> option error;
  transport : Request -> Response + error }.

Module otel.
(** [otel.Tracer(key).Start(ctx, name)] *)
Definition Start (ctx : Context) (name : string) : M Context :=
  emit (SpanStart name) ;; mret (name :: ctx).
Definition End_ (name : string) : M unit := emit (SpanEnd name).
(** [instrument.Add(ctx, incr, options)] on a counter *)
Definition Add (instrument : string) (incr : Z) (attrs : list KeyValue) : M unit :=
  emit (CounterAdd instrument incr attrs).
(** [instrument.Record(ctx, v, options)] on a histogram *)
Definition Record_ (instrument : string) (v : Z) (attrs : list KeyValue) : M unit :=
  emit (HistogramRecord instrument v attrs).
End otel.

(** The setters the code uses on requests and responses. *)
Definition set_RHeader (h : Header.t) (r : Request) : Request :=
  mkRequest (RContext r) (Method r) (RURL r) (RHost r) h (RContentLength r).
Definition WithContext (ctx : Context) (r : Request) : Request :=
  mkRequest ctx (Method r) (RURL r) (RHost r) (RHeader r) (RContentLength r).
Definition set_Request (q : Request) (res : Response) : Response :=
  mkResponse (StatusCode res) (Header_ res) (Body res) (ContentLength res) q.
Definition set_Header (h : Header.t) (res : Response) : Response :=
  mkResponse (StatusCode res) h (Body res) (ContentLength res) (Request_ res).
Definition set_Body (b : list Byte.byte) (res : Response) : Response :=
  mkResponse (StatusCode res) (Header_ res) b (ContentLength res) (Request_ res).
Definition set_ContentLength (n : Z) (res : Response) : Response :=
  mkResponse (StatusCode res) (Header_ res) (Body res) n (Request_ res).

(** [w.WriteHeader(statusCode)] *)
Definition WriteHeader (statusCode : Z) : M unit :=
  emit (CallWriteHeader statusCode) ;;
  mod_writer (fun w => mkWriter (WHeader w) (Some statusCode) (WBody w) (WFailure w)).

(** Modelled from the spec: [FailRequest] belongs to this package, and its
    file is not among the sources at hand.  Section 6: the uniform failure
    response has the status the caller gives, and its body holds the
    error-kind tag and the underlying error. *)
Definition FailRequest (r : Request) (statusCode : Z) (errorCode : string)
    (ctx : Context) (err : option error) : M unit :=
  emit (CallFailRequest statusCode errorCode err) ;;
  mod_writer (fun w =>
    mkWriter (WHeader w) (Some statusCode) (WBody w) (Some (mkFailure errorCode err))).

(** ** handler/proxy.go *)

(** [*httputil.ReverseProxy] as [CreateReverseProxy] builds it: the single
    target host, with [modifyRequest] as Director, [handleError] as
    ErrorHandler and [modifyResponse] as ModifyResponse. *)
Record ReverseProxy := mkProxy {
  proxy_targetHost : string;
  proxy_tokenProvider : option ITokenProvider }.

Definition CreateReverseProxy (env : Env) (targetHost : string)
    (tokenProvider : option ITokenProvider) : ReverseProxy + error :=
  match url_Parse env targetHost with
  | Some err => inr err
  | None => inl (mkProxy targetHost tokenProvider)
  end.

(** This modifies incoming requests and changes host to targetHost *)
Definition modifyRequest (env : Env) (request : Request) (targetHost : string)
    (tokenProvider : option ITokenProvider) : M Request :=
  ctx ← otel.Start (RContext request) "modifyRequest";
  with_defer (otel.End_ "modifyRequest")
    (emit (SpanSetAttributes "modifyRequest"
       [attribute.String_ "request.target_scheme" constants.HTTPS_SCHEME;
        attribute.String_ "request.target_host" targetHost]) ;;
     let request :=
       mkRequest (RContext request) (Method request)
         (mkURL constants.HTTPS_SCHEME targetHost (Path (RURL request))
            (RawQuery (RURL request)))
         targetHost (RHeader request) (RContentLength request) in
     let metricAttributes :=
       [attribute.String_ "target_host" (UHost (RURL request));
        attribute.String_ "method" (Method request);
        attribute.String_ "path" (Path (RURL request));
        attribute.String_ "user_agent"
          (Header.Get (RHeader request) constants.HEADER_USER_AGENT)] in
     let err := Int64Counter env constants.METRIC_REQUEST_BYTES_TOTAL in
     when (is_nil err)
       (otel.Add constants.METRIC_REQUEST_BYTES_TOTAL (RContentLength request)
          metricAttributes) ;;
     mret request).

(** This will be called when there is an error in forwarding the request *)
Definition handleError (env : Env) (request : Request) (response_err : error) : M unit :=
  ctx ← otel.Start (RContext request) "handleError";
  with_defer (otel.End_ "handleError")
    (response ← get_writer;
     let attributes :=
       [attribute.String_ "response.status_code"
          (Header.Get (WHeader response) constants.HEADER_STATUS_CODE);
        attribute.String_ "response.content_type"
          (Header.Get (WHeader response) constants.HEADER_CONTENT_TYPE);
        attribute.String_ "response.content_encoding"
          (Header.Get (WHeader response) constants.HEADER_CONTENT_ENCODING);
        attribute.String_ "response.request_id"
          (Header.Get (WHeader response) constants.HEADER_REQUEST_ID);
        attribute.String_ "response.error.message" response_err] in
     emit (SpanSetAttributes "handleError" attributes) ;;
     emit (SpanRecordError "handleError" response_err) ;;
     emit (SpanSetStatusError "handleError" "failed to forward request") ;;
     emit (LogErrorln ["Request failed"; response_err]) ;;
     let '(status_code, err) :=
       strconv.ParseInt_10_32
         (Header.Get (WHeader response) constants.HEADER_STATUS_CODE) in
     status_code ←
       (if is_nil err then mret status_code
        else emit (LogErrorln ["Failed to parse status code, returning status code 503"]) ;;
             mret http.StatusServiceUnavailable);
     let metricAttributes :=
       [attribute.String_ "target_host" (UHost (RURL request));
        attribute.String_ "method" (Method request);
        attribute.String_ "path" (Path (RURL request));
        attribute.String_ "user_agent"
          (Header.Get (RHeader request) constants.HEADER_USER_AGENT);
        attribute.Int "status_code" status_code] in
     let err := Int64Counter env constants.METRIC_REQUESTS_TOTAL in
     when (is_nil err)
       (otel.Add constants.METRIC_REQUESTS_TOTAL 1 metricAttributes) ;;
     FailRequest request status_code response_err ctx (Some response_err)).

(** This will check encoding, if encoding is gzip or deflate, it will decode
    response body and log it *)
Definition logResponse (env : Env) (ctx : Context) (response : Response) : M Response :=
  let encoding := Header.Get (Header_ response) constants.HEADER_CONTENT_ENCODING in
  let encoderDecoder := NewEncoderDecoder env in
  (* reading moves the body stream forward, whatever the result *)
  let '(decoded, unread) := Decode encoderDecoder encoding (Body response) in
  let response := set_Body unread response in
  match decoded with
  | inr err =>
      emit (LogErrorln ["Failed to decode response body"; err]) ;;
      mret response
  | inl responseBody =>
      emit (LogErrorln ["Error response body: "; string_of_list_byte responseBody]) ;;
      match Encode encoderDecoder encoding responseBody with
      | inr err =>
          emit (LogErrorln ["Failed to encode response body"; err]) ;;
          mret response
      | inl buffer =>
          let response := set_Body buffer response in
          let response := set_ContentLength (Z.of_nat (length buffer)) response in
          let response :=
            set_Header (Header.Set_ (Header_ response) constants.HEADER_CONTENT_LENGTH
                          (strconv.Itoa (Z.of_nat (length buffer)))) response in
          let response :=
            set_Header (Header.Set_ (Header_ response) constants.HEADER_CONTENT_ENCODING
                          encoding) response in
          mret response
      end
  end.

(** This will be called once we receive response from targetHost *)
Definition modifyResponse (env : Env) (response : Response) : M (Response * option error) :=
  ctx ← otel.Start (RContext (Request_ response)) "modifyResponse";
  with_defer (otel.End_ "modifyResponse")
    (let traceAttributes :=
       [attribute.Int "response.status_code" (StatusCode response);
        attribute.String_ "response.content_length"
          (Header.Get (Header_ response) constants.HEADER_CONTENT_LENGTH);
        attribute.String_ "response.content_type"
          (Header.Get (Header_ response) constants.HEADER_CONTENT_TYPE);
        attribute.String_ "response.content_encoding"
          (Header.Get (Header_ response) constants.HEADER_CONTENT_ENCODING);
        attribute.String_ "response.request_id"
          (Header.Get (Header_ response) constants.HEADER_REQUEST_ID)] in
     emit (SpanSetAttributes "modifyResponse" traceAttributes) ;;
     let metricAttributes :=
       [attribute.String_ "target_host" (UHost (RURL (Request_ response)));
        attribute.String_ "method" (Method (Request_ response));
        attribute.String_ "path" (Path (RURL (Request_ response)));
        attribute.String_ "user_agent"
          (Header.Get (RHeader (Request_ response)) constants.HEADER_USER_AGENT);
        attribute.Int "status_code" (StatusCode response)] in
     let err := Int64Counter env constants.METRIC_REQUESTS_TOTAL in
     when (is_nil err)
       (otel.Add constants.METRIC_REQUESTS_TOTAL 1 metricAttributes) ;;
     let err := Int64Counter env constants.METRIC_RESPONSE_BYTES_TOTAL in
     when (is_nil err)
       (otel.Add constants.METRIC_RESPONSE_BYTES_TOTAL (ContentLength response)
          metricAttributes) ;;
     emit (LogInfoln ["Successfully sent request, returning response back."]) ;;
     let response :=
       set_Header (Header.Set_ (Header_ response) "Status-Code"
                     (strconv.Itoa (StatusCode response))) response in
     response ←
       (if http.StatusBadRequest <=? StatusCode response then
          let err := errors.New ("Non 2xx response from target host: "
                                 +:+ strconv.Itoa (StatusCode response)) in
          emit (SpanRecordError "modifyResponse" err) ;;
          emit (SpanSetStatusError "modifyResponse" "Non 2xx response from target host") ;;
          logResponse env ctx response
        else mret response);
     mret (response, None)).

(** ** The proxying primitive

    [httputil.ReverseProxy.ServeHTTP], by its documented contract: the
    Director rewrites the outbound request, the transport performs the round
    trip, a transport error goes to the ErrorHandler, a response goes to
    ModifyResponse (whose error, if any, goes to the ErrorHandler as well)
    and is then relayed to the caller: headers, status, body.  The
    primitive's own header hygiene and protocol upgrades are left out. *)
Definition relay (res : Response) : M unit :=
  mod_writer (fun w =>
    mkWriter (union_with (fun a b => Some (a ++ b)%list) (WHeader w) (Header_ res))
      (WStatus w) (WBody w) (WFailure w)) ;;
  WriteHeader (StatusCode res) ;;
  mod_writer (fun w => mkWriter (WHeader w) (WStatus w) (Body res) (WFailure w)).

Definition ServeHTTP (env : Env) (p : ReverseProxy) (r : Request) : M unit :=
  outreq ← modifyRequest env r (proxy_targetHost p) (proxy_tokenProvider p);
  emit (CallRoundTrip outreq) ;;
  match transport env outreq with
  | inr err => handleError env outreq err
  | inl res =>
      '(res, err) ← modifyResponse env (set_Request outreq res);
      match err with
      | Some e => handleError env outreq e
      | None => relay res
      end
  end.

(** ** handler/handler.go *)

(** This manages token provider handler *)
Record Handler := mkHandler {
  targetHost : string;
  proxy : option ReverseProxy;
  tokenProvider : option ITokenProvider;
  configuration : option IConfiguration;
  overrideHeaders : option (list (string * string)) }.

(** Creates a new handler *)
Definition NewHandler (proxy : option ReverseProxy)
    (tokenProvider : option ITokenProvider)
    (configuration : option IConfiguration) : Handler + error :=
  match proxy, tokenProvider, configuration with
  | None, _, _ => inr (errors.New "proxy cannot be nil")
  | Some _, None, _ => inr (errors.New "tokenProvider cannot be nil")
  | Some _, Some _, None => inr (errors.New "configuration cannot be nil")
  | Some _, Some _, Some cfg =>
      let additionalheaders := GetAdditionalHeaders cfg in
      let overrideHeaders :=
        match additionalheaders with
        | Some l => if (0 <? length l)%nat then additionalheaders else None
        | None => None
        end in
      inl (mkHandler (GetTargetHost cfg) proxy tokenProvider configuration
             overrideHeaders)
  end.

(** TokenProvider check.
    If token provider is not instantiated, cannot fetch token, so fail request *)
Definition checkTokenProvider (handler : Handler) (ctx : Context) : M (option error) :=
  if is_nil (tokenProvider handler) then
    '(token, err) ← GetAccessToken (tokenProvider handler);
    if (String.length token =? 0)%nat || negb (is_nil err) then
      _ ← otel.Start ctx "checkTokenProvider";
      with_defer (otel.End_ "checkTokenProvider")
        ((* If we run into a case where we received empty token without any errors *)
         let err :=
           match err with
           | None => errors.New
               "handler, tokenProvider is not instantiated, cannot forward request"
           | Some e => e
           end in
         emit (SpanSetAttributes "checkTokenProvider"
                 [attribute.Int "proxy.status_code" http.StatusServiceUnavailable]) ;;
         emit (SpanRecordError "checkTokenProvider" err) ;;
         emit (SpanSetStatusError "checkTokenProvider" "failed to forward request") ;;
         emit (LogErrorln ["failed to forward request"; err]) ;;
         mret (Some err))
    else mret None
  else mret None.

(** [ProxyRequest], lines 79 to 98: the gate has answered [err].  The block
    declares an [err] of its own ([requestCountIntrument, err := ...]), and
    that one is in scope at the call of [FailRequest]. *)
Definition ProxyRequest_unavailable (env : Env) (r : Request) (ctx : Context)
    (err : error) : M Request :=
  let metricAttributes :=
    [attribute.String_ "target_host" (UHost (RURL r));
     attribute.String_ "method" (Method r);
     attribute.String_ "path" (Path (RURL r));
     attribute.String_ "user_agent" (Header.Get (RHeader r) "User-Agent");
     attribute.Int "status_code" http.StatusServiceUnavailable] in
  let err := Int64Counter env constants.METRIC_REQUESTS_TOTAL in
  when (is_nil err)
    (otel.Add constants.METRIC_REQUESTS_TOTAL 1 metricAttributes) ;;
  FailRequest r http.StatusServiceUnavailable "AuthenticationTokenNotFound" ctx err ;;
  mret r.

(** The deferred closure of [ProxyRequest], lines 114 to 137 *)
Definition record_duration (env : Env) (handler : Handler) (r : Request) : M unit :=
  let duration := elapsed_ms env in
  w ← get_writer;
  let '(status_code, err) :=
    strconv.ParseInt_10_32 (Header.Get (WHeader w) "Status-Code") in
  status_code ←
    (if is_nil err then mret status_code
     else emit (LogErrorln ["Failed to parse status code, assuming status code 0"]) ;;
          mret 0);
  let err := Int64Histogram env constants.METRIC_REQUEST_DURATION_MILLISECONDS in
  when (is_nil err)
    (let metricAttributes :=
       [attribute.String_ "target_host" (targetHost handler);
        attribute.String_ "method" (Method r);
        attribute.String_ "path" (Path (RURL r));
        attribute.String_ "user_agent" (Header.Get (RHeader r) "User-Agent");
        attribute.Int "status_code" status_code] in
     otel.Record_ constants.METRIC_REQUEST_DURATION_MILLISECONDS duration
       metricAttributes).

(** [for key, value := range handler.overrideHeaders { r.Header.Set(key, value) }] *)
Definition apply_overrides (overrides : list (string * string)) (h : Header.t) : Header.t :=
  fold_left (fun h kv => Header.Set_ h kv.1 kv.2) overrides h.

(** [ProxyRequest], lines 101 to 140: the gate has let the request through. *)
Definition ProxyRequest_forward (env : Env) (handler : Handler) (r : Request)
    (ctx : Context) : M Request :=
  '(token, _) ← GetAccessToken (tokenProvider handler);
  let r := set_RHeader
             (Header.Set_ (RHeader r) constants.HEADER_AUTHORIZATION ("Bearer " +:+ token))
             r in
  let r :=
    match overrideHeaders handler with
    | Some overrides => set_RHeader (apply_overrides overrides (RHeader r)) r
    | None => r
    end in
  with_defer (record_duration env handler r)
    (match proxy handler with
     | None => panic nil_dereference
     | Some p => ServeHTTP env p (WithContext ctx r)
     end ;;
     mret r).

(** Reverse proxy handler *)
Definition ProxyRequest (env : Env) (handler : Handler) (r : Request) : M Request :=
  ctx ← otel.Start (RContext r) "ProxyRequest";
  with_defer (otel.End_ "ProxyRequest")
    (let attributes :=
       [attribute.String_ "request.query_string" (RawQuery (RURL r));
        attribute.String_ "request.path" (Path (RURL r));
        attribute.String_ "request.method" (Method r);
        attribute.Int64 "request.content_length" (RContentLength r);
        attribute.String_ "request.content_type" (Header.Get (RHeader r) "Content-Type");
        attribute.String_ "request.user_agent" (Header.Get (RHeader r) "user-Agent");
        attribute.String_ "request.content_encoding"
          (Header.Get (RHeader r) "Content-Encoding")] in
     emit (SpanSetAttributes "ProxyRequest" attributes) ;;
     err ← checkTokenProvider handler ctx;
     match err with
     | Some err => ProxyRequest_unavailable env r ctx err
     | None => ProxyRequest_forward env handler r ctx
     end).

(** Readiness check handler *)
Definition ReadinessCheck (handler : Handler) (r : Request) : M unit :=
  ctx ← otel.Start (RContext r) "ReadinessCheck";
  with_defer (otel.End_ "ReadinessCheck")
    (err ← checkTokenProvider handler ctx;
     match err with
     | Some _ =>
         FailRequest r http.StatusServiceUnavailable "AuthenticationTokenNotFound" ctx err
     | None =>
         emit (SpanSetAttributes "ReadinessCheck"
                 [attribute.Int "response.status_code" http.StatusOK]) ;;
         WriteHeader http.StatusOK
     end).

(** ** Running a handler and reading its trace *)

Definition empty_writer : ResponseWriter := mkWriter ∅ None [] None.

Definition fresh (w : ResponseWriter) : World := mkWorld O w.

Definition result_of {A} (x : outcome A * World * list event) : outcome A := x.1.1.
Definition world_of {A} (x : outcome A * World * list event) : World := x.1.2.
Definition trace_of {A} (x : outcome A * World * list event) : list event := x.2.

Definition is_requests_total (e : event) : bool :=
  match e with
  | CounterAdd name _ _ => String.eqb name constants.METRIC_REQUESTS_TOTAL
  | _ => false
  end.

(** The [requests_total] samples of a trace, oldest first. *)
Definition requests_total_samples (es : list event) : list event :=
  List.filter is_requests_total es.

Definition is_fail_request (e : event) : bool :=
  match e with CallFailRequest _ _ _ => true | _ => false end.

(** The requests handed to the backend, oldest first. *)
Definition dispatched (es : list event) : list Request :=
  omap (fun e => match e with CallRoundTrip q => Some q | _ => None end) es.

Arguments Header.Get : simpl never.
Arguments Header.Set_ : simpl never.
Arguments Header.Values : simpl never.
Arguments strconv.ParseInt_10_32 : simpl never.
Arguments strconv.Itoa : simpl never.
Arguments string_of_list_byte : simpl never.

(** The request that reaches the transport when the gate lets [r] through
    and [GetAccessToken] answers [token]: bearer credential, overrides, the
    span context of [ProxyRequest], then the Director's rewriting. *)
Definition outbound (handler : Handler) (p : ReverseProxy) (token : string)
    (r : Request) : Request :=
  let hdr := Header.Set_ (RHeader r) constants.HEADER_AUTHORIZATION ("Bearer " +:+ token) in
  let hdr :=
    match overrideHeaders handler with
    | Some overrides => apply_overrides overrides hdr
    | None => hdr
    end in
  mkRequest ("ProxyRequest" :: RContext r) (Method r)
    (mkURL constants.HTTPS_SCHEME (proxy_targetHost p) (Path (RURL r))
       (RawQuery (RURL r)))
    (proxy_targetHost p) hdr (RContentLength r).

(** The inbound request once [ProxyRequest] has set the bearer credential
    on it. *)
Definition RHeader_bearer (token : string) (r : Request) : Request :=
  set_RHeader
    (Header.Set_ (RHeader r) constants.HEADER_AUTHORIZATION ("Bearer " +:+ token)) r.

(** The status [handleError] answers with: the [Status-Code] header of the
    response writer parsed as a 32-bit decimal, 503 if that fails. *)
Definition dispatch_status (w : ResponseWriter) : Z :=
  match strconv.ParseInt_10_32 (Header.Get (WHeader w) constants.HEADER_STATUS_CODE) with
  | (v, None) => v
  | (_, Some _) => http.StatusServiceUnavailable
  end.

(** The [requests_total] sample of a request [q] that ended with [status]. *)
Definition requests_total_sample (q : Request) (status : Z) : event :=
  CounterAdd constants.METRIC_REQUESTS_TOTAL 1
    [attribute.String_ "target_host" (UHost (RURL q));
     attribute.String_ "method" (Method q);
     attribute.String_ "path" (Path (RURL q));
     attribute.String_ "user_agent" (Header.Get (RHeader q) constants.HEADER_USER_AGENT);
     attribute.Int "status_code" status].

(** ** Sample surroundings, used to exercise the statements below *)

(** A codec standing in for [utils.EncoderDecoder]: a [gzip] body is framed
    by the two magic bytes of a gzip member, any other encoding is the
    identity.  Decoding reads the whole stream before it answers. *)
Definition gzip_magic : list Byte.byte := [Byte.x1f; Byte.x8b].

Definition frame_Decode (encoding : string) (body : list Byte.byte)
    : (list Byte.byte + error) * list Byte.byte :=
  if String.eqb encoding "gzip" then
    match body with
    | Byte.x1f :: Byte.x8b :: payload => (inl payload, [])
    | _ => (inr (errors.New "gzip: invalid header"), [])
    end
  else (inl body, []).

Definition frame_Encode (encoding : string) (data : list Byte.byte)
    : list Byte.byte + error :=
  if String.eqb encoding "gzip" then inl (gzip_magic ++ data)%list else inl data.

Definition frame_codec : EncoderDecoder := mkCodec frame_Decode frame_Encode.

Definition sample_url : URL := mkURL "http" "proxy.local" "/widgets" "x=1".

Definition sample_request : Request :=
  mkRequest [] "GET" sample_url "proxy.local"
    (Header.Set_ (Header.Set_ ∅ "User-Agent" "curl/8.0") "X-A" "inbound") 0.

Definition backend_200 (q : Request) : Response + error :=
  inl (mkResponse 200 (Header.Set_ ∅ "Content-Type" "text/plain")
         [Byte.x6f; Byte.x6b] 2 q).

Definition backend_refuses (q : Request) : Response + error :=
  inr (errors.New "dial tcp: connection refused").

(** Every instrument is available, the backend answers 200. *)
Definition env_ok : Env :=
  mkEnv (fun _ => None) (fun _ => None) 7 frame_codec (fun _ => None) backend_200.

(** Every instrument is available, the backend cannot be reached. *)
Definition env_refused : Env :=
  mkEnv (fun _ => None) (fun _ => None) 7 frame_codec (fun _ => None) backend_refuses.

(** No counter can be acquired, the backend cannot be reached. *)
Definition env_no_meter : Env :=
  mkEnv (fun _ => Some (errors.New "meter provider is shut down")) (fun _ => None) 7
    frame_codec (fun _ => None) backend_refuses.

Definition tp_token : ITokenProvider := fun _ => ("tok", None).
Definition tp_empty : ITokenProvider := fun _ => ("", None).
Definition tp_failing : ITokenProvider :=
  fun _ => ("", Some (errors.New "token endpoint unreachable")).

Definition sample_proxy (tp : ITokenProvider) : ReverseProxy :=
  mkProxy "backend.example" (Some tp).

Definition sample_config (overrides : option (list (string * string))) : IConfiguration :=
  mkConfiguration "backend.example" overrides "aad-auth-proxy" "".

(** A handler as [NewHandler] builds it. *)
Definition sample_handler (tp : ITokenProvider)
    (overrides : option (list (string * string))) : Handler :=
  mkHandler "backend.example" (Some (sample_proxy tp)) (Some tp)
    (Some (sample_config overrides)) overrides.

(** A handler whose token provider is the nil interface: [NewHandler] refuses
    to build it, a struct literal inside the package does not. *)
Definition handler_without_provider : Handler :=
  mkHandler "backend.example" (Some (mkProxy "backend.example" None)) None
    (Some (sample_config None)) None.



(** A 500 answer with a gzip body that is not a gzip stream. *)
Definition broken_gzip_response : Response :=
  mkResponse 500 (Header.Set_ (Header.Set_ ∅ "Content-Encoding" "gzip") "Content-Length" "3")
    [Byte.x6f; Byte.x6f; Byte.x70] 3 sample_request.

(** A 500 answer with a framed gzip body. *)
Definition gzip_response : Response :=
  mkResponse 500 (Header.Set_ (Header.Set_ ∅ "Content-Encoding" "gzip") "Content-Length" "5")
    [Byte.x1f; Byte.x8b; Byte.x6f; Byte.x6f; Byte.x70] 5 sample_request.

(** ** The statements of the specification that the code does not meet as
    they are worded *)



(** Section 4.5: every dispatch failure emits a [requests_total] sample with
    the parsed or fallback status before the uniform failure response. *)
Definition counted_then_failed (es : list event) (q : Request) (status : Z) : Prop :=
  exists (i j : nat) tag err,
    es !! i = Some (requests_total_sample q status) /\
    es !! j = Some (CallFailRequest status tag err) /\
    (i < j)%nat.

Definition handleError_always_counts : Prop :=
  forall (env : Env) (q : Request) (e : error) (σ : World),
    counted_then_failed (trace_of (handleError env q e σ)) q
      (dispatch_status (writer σ)).

(** ** Further observations on requests and traces *)

(** What the Director makes of a request: scheme and host of the target. *)
Definition rewrite_target (targetHost : string) (q : Request) : Request :=
  mkRequest (RContext q) (Method q)
    (mkURL constants.HTTPS_SCHEME targetHost (Path (RURL q)) (RawQuery (RURL q)))
    targetHost (RHeader q) (RContentLength q).

(** The inbound request as [ProxyRequest] leaves it: bearer credential, then
    the overrides. *)
Definition forwarded_request (handler : Handler) (token : string) (r : Request) : Request :=
  let r := RHeader_bearer token r in
  match overrideHeaders handler with
  | Some overrides => set_RHeader (apply_overrides overrides (RHeader r)) r
  | None => r
  end.

(** Spans are opened and closed like brackets: [open] holds the spans that
    are open, innermost first. *)
Fixpoint spans_nested (open : list string) (es : list event) : bool :=
  match es with
  | [] => match open with [] => true | _ :: _ => false end
  | SpanStart name :: es' => spans_nested (name :: open) es'
  | SpanEnd name :: es' =>
      match open with
      | top :: open' => String.eqb name top && spans_nested open' es'
      | [] => false
      end
  | _ :: es' => spans_nested open es'
  end.

Definition is_duration (e : event) : bool :=
  match e with
  | HistogramRecord name _ _ =>
      String.eqb name constants.METRIC_REQUEST_DURATION_MILLISECONDS
  | _ => false
  end.

Definition duration_samples (es : list event) : list event :=
  List.filter is_duration es.

Definition is_token_fetch (e : event) : bool :=
  match e with CallGetAccessToken => true | _ => false end.

Definition is_sample (e : event) : bool :=
  match e with
  | CounterAdd _ _ _ | HistogramRecord _ _ _ => true
  | _ => false
  end.

Definition samples (es : list event) : list event := List.filter is_sample es.

Definition without_samples (es : list event) : list event :=
  List.filter (fun e => negb (is_sample e)) es.

Definition is_log (e : event) : bool :=
  match e with LogErrorln _ | LogInfoln _ => true | _ => false end.

(** The codec and the backend of [env], with every instrument available
    and a clock that stands still. *)
Definition calm (env : Env) : Env :=
  mkEnv (fun _ => None) (fun _ => None) 0 (NewEncoderDecoder env)
    (fun _ => None) (transport env).

Definition request_attributes (host : string) (q : Request) : list KeyValue :=
  [attribute.String_ "target_host" host;
   attribute.String_ "method" (Method q);
   attribute.String_ "path" (Path (RURL q));
   attribute.String_ "user_agent" (Header.Get (RHeader q) constants.HEADER_USER_AGENT)].

(** The attributes [ProxyRequest] sets on its span. *)
Definition request_span_attributes (r : Request) : list KeyValue :=
  [attribute.String_ "request.query_string" (RawQuery (RURL r));
   attribute.String_ "request.path" (Path (RURL r));
   attribute.String_ "request.method" (Method r);
   attribute.Int64 "request.content_length" (RContentLength r);
   attribute.String_ "request.content_type" (Header.Get (RHeader r) "Content-Type");
   attribute.String_ "request.user_agent" (Header.Get (RHeader r) "user-Agent");
   attribute.String_ "request.content_encoding"
     (Header.Get (RHeader r) "Content-Encoding")].

(** The [request_duration_milliseconds] sample of a request. *)
Definition duration_sample (handler : Handler) (r : Request) (elapsed status : Z) : event :=
  HistogramRecord constants.METRIC_REQUEST_DURATION_MILLISECONDS elapsed
    (request_attributes (targetHost handler) r ++ [attribute.Int "status_code" status])%list.

(** The status the deferred step of [ProxyRequest] records: the
    [Status-Code] header of the response writer parsed as a 32-bit decimal,
    0 if that fails. *)
Definition duration_status (w : ResponseWriter) : Z :=
  match strconv.ParseInt_10_32 (Header.Get (WHeader w) "Status-Code") with
  | (v, None) => v
  | (_, Some _) => 0
  end.

(** A run that leaves the token provider alone, records no duration and
    closes the spans it opens. *)
Definition quiet {A} (x : outcome A * World * list event) (σ : World) : Prop :=
  tp_calls (world_of x) = tp_calls σ /\
  List.filter is_token_fetch (trace_of x) = [] /\
  duration_samples (trace_of x) = [] /\
  (forall open rest,
     spans_nested open (trace_of x ++ rest)%list = spans_nested open rest).

(** A handler with a provider and no proxy: [NewHandler] refuses to build
    it, a struct literal inside the package does not. *)
Definition handler_without_proxy : Handler :=
  mkHandler "backend.example" None (Some tp_token) (Some (sample_config None)) None.

(** A 404 answer with no [Content-Encoding] header. *)
Definition plain_404_response : Response :=
  mkResponse 404 (Header.Set_ ∅ "Content-Type" "text/plain")
    [Byte.x6e; Byte.x6f] 2 sample_request.

(** The run of the proxying primitive inside [ProxyRequest], for a handler
    with provider [f] and proxy [p]. *)
Definition served (env : Env) (h : Handler) (f : ITokenProvider) (p : ReverseProxy)
    (r : Request) (σ : World) : outcome unit * World * list event :=
  ServeHTTP env p
    (WithContext ("ProxyRequest" :: RContext r)
       (forwarded_request h (f (tp_calls σ)).1 r))
    (mkWorld (S (tp_calls σ)) (writer σ)).

(** ** Basic facts on the library models *)

Example ParseInt_examples :
  strconv.ParseInt_10_32 "404" = (404, None) /\
  strconv.ParseInt_10_32 "" = (0, Some strconv.ErrSyntax) /\
  strconv.ParseInt_10_32 "+" = (0, Some strconv.ErrSyntax) /\
  strconv.ParseInt_10_32 "-17" = (-17, None) /\
  strconv.ParseInt_10_32 "5x" = (0, Some strconv.ErrSyntax) /\
  strconv.ParseInt_10_32 "2147483648" = (2147483647, Some strconv.ErrRange) /\
  strconv.ParseInt_10_32 "-2147483648" = (-2147483648, None).
Proof. repeat split; reflexivity. Qed.

Example Itoa_examples :
  strconv.Itoa 0 = "0" /\ strconv.Itoa 503 = "503" /\ strconv.Itoa (-12) = "-12" /\
  strconv.Itoa 1000 = "1000".
Proof. repeat split; reflexivity. Qed.

(** The status signal: what [modifyResponse] writes into [Status-Code] is
    read back by [ParseInt], for every three-digit status. *)
Example status_signal_round_trip :
  forallb (fun n => match strconv.ParseInt_10_32 (strconv.Itoa n) with
                    | (v, None) => v =? n
                    | _ => false
                    end) (seqZ 100 900) = true.
Proof. vm_compute. reflexivity. Qed.

Example canonical_examples :
  textproto.CanonicalMIMEHeaderKey "user-Agent" = "User-Agent" /\
  textproto.CanonicalMIMEHeaderKey "CONTENT-length" = "Content-Length" /\
  textproto.CanonicalMIMEHeaderKey "x a" = "x a".
Proof. repeat split; reflexivity. Qed.


(** ** Reading the monad *)

Ltac unfold_M :=
  unfold with_defer, otel.Start, otel.End_, otel.Add, otel.Record_, WriteHeader,
    FailRequest, when, get_writer, mod_writer, emit, panic, GetAccessToken,
    mbind, M_bind, bind, mret, M_ret, ret in *.

Lemma NewHandler_inl px tp cfg h :
  NewHandler px tp cfg = inl h ->
  exists p f c, px = Some p /\ tp = Some f /\ cfg = Some c /\
    proxy h = Some p /\ tokenProvider h = Some f /\
    configuration h = Some c /\ targetHost h = GetTargetHost c.
Proof.
  unfold NewHandler. destruct px as [p|], tp as [f|], cfg as [c|]; try discriminate.
  intros [= <-]. exists p, f, c. simpl. auto 10.
Qed.

Lemma checkTokenProvider_present h f ctx σ :
  tokenProvider h = Some f ->
  checkTokenProvider h ctx σ = (Returned None, σ, []).
Proof. intros Hf. unfold checkTokenProvider. rewrite Hf. reflexivity. Qed.

Lemma checkTokenProvider_absent h ctx σ :
  tokenProvider h = None ->
  checkTokenProvider h ctx σ = (Panicked nil_dereference, σ, []).
Proof. intros Hf. unfold checkTokenProvider. rewrite Hf. reflexivity. Qed.

(** ** Headers *)

Section header_facts.
Implicit Types (h : Header.t) (k v : string).

Lemma Values_Set_eq h k k' v :
  textproto.CanonicalMIMEHeaderKey k = textproto.CanonicalMIMEHeaderKey k' ->
  Header.Values (Header.Set_ h k v) k' = [v].
Proof.
  intros E. unfold Header.Values, Header.Set_. rewrite E.
  by rewrite lookup_insert_eq.
Qed.

Lemma Values_Set_ne h k k' v :
  textproto.CanonicalMIMEHeaderKey k <> textproto.CanonicalMIMEHeaderKey k' ->
  Header.Values (Header.Set_ h k v) k' = Header.Values h k'.
Proof.
  intros E. unfold Header.Values, Header.Set_. by rewrite lookup_insert_ne.
Qed.

Lemma Get_Values h k : Header.Get h k = hd "" (Header.Values h k).
Proof.
  unfold Header.Get, Header.Values.
  by destruct (h !! textproto.CanonicalMIMEHeaderKey k) as [[|]|].
Qed.

Lemma Get_Set_eq h k v : Header.Get (Header.Set_ h k v) k = v.
Proof. by rewrite Get_Values, Values_Set_eq. Qed.

Lemma Get_Set_ne h k k' v :
  textproto.CanonicalMIMEHeaderKey k <> textproto.CanonicalMIMEHeaderKey k' ->
  Header.Get (Header.Set_ h k v) k' = Header.Get h k'.
Proof. intros E. by rewrite !Get_Values, Values_Set_ne. Qed.

Lemma Get_absent h k :
  h !! textproto.CanonicalMIMEHeaderKey k = None -> Header.Get h k = "".
Proof. unfold Header.Get. by intros ->. Qed.




End header_facts.

(** ** The hooks of the proxy *)

Ltac split_run :=
  repeat match goal with
  | |- context [strconv.ParseInt_10_32 ?s] =>
      destruct (strconv.ParseInt_10_32 s) as [? [?|]]; cbn
  | |- context [Int64Counter ?env ?n] => destruct (Int64Counter env n); cbn
  | |- context [Int64Histogram ?env ?n] => destruct (Int64Histogram env n); cbn
  | |- context [transport ?env ?q] => destruct (transport env q) as [?|?]; cbn
  | |- context [Decode ?c ?e ?b] => destruct (Decode c e b) as [[?|?] ?]; cbn
  | |- context [Encode ?c ?e ?b] => destruct (Encode c e b) as [?|?]; cbn
  | |- context [(?a <=? ?b)%Z] => destruct (a <=? b)%Z; cbn
  end.

Lemma dispatch_status_absent w :
  WHeader w !! textproto.CanonicalMIMEHeaderKey constants.HEADER_STATUS_CODE = None ->
  dispatch_status w = http.StatusServiceUnavailable.
Proof. intros Ha. unfold dispatch_status. by rewrite (Get_absent _ _ Ha). Qed.

Lemma handleError_samples env q e σ :
  Int64Counter env constants.METRIC_REQUESTS_TOTAL = None ->
  requests_total_samples (trace_of (handleError env q e σ))
  = [requests_total_sample q (dispatch_status (writer σ))].
Proof.
  intros Hm. unfold handleError, dispatch_status. unfold_M. unfold trace_of. cbn.
  rewrite Hm. by split_run.
Qed.

Lemma logResponse_quiet env ctx res σ :
  Forall (fun e => exists args, e = LogErrorln args) (trace_of (logResponse env ctx res σ))
  /\ world_of (logResponse env ctx res σ) = σ.
Proof.
  unfold logResponse. unfold_M. unfold trace_of, world_of.
  split_run; split; try done; repeat constructor; eauto.
Qed.


(** What a request that passes the gate amounts to: one [requests_total]
    sample when the counter is available, and one round trip, made with the
    [outbound] request. *)
Lemma ProxyRequest_forwarded env h f p r σ :
  tokenProvider h = Some f -> proxy h = Some p ->
  (Int64Counter env constants.METRIC_REQUESTS_TOTAL = None ->
   length (requests_total_samples (trace_of (ProxyRequest env h r σ))) = 1%nat) /\
  dispatched (trace_of (ProxyRequest env h r σ)) = [outbound h p (f (tp_calls σ)).1 r].
Proof.
  intros Hf Hp.
  unfold ProxyRequest, ProxyRequest_forward, ServeHTTP, modifyRequest, handleError,
    modifyResponse, logResponse, relay, record_duration, checkTokenProvider.
  rewrite Hf, Hp. unfold_M. unfold trace_of, outbound. cbn.
  destruct (f (tp_calls σ)) as [token err0]. cbn.
  destruct (Int64Counter env constants.METRIC_REQUESTS_TOTAL) eqn:Hm; cbn;
    (split; [intros [=]|]); split_run;
    try reflexivity; destruct (overrideHeaders h); reflexivity.
Qed.

(** ** The availability gate *)

(** C1. The provider is present and answers the empty token with no error:
    the gate is to fail and [ProxyRequest] to answer 503 without a dispatch.
    The code does otherwise: the gate looks at the provider only when it is
    nil, so here it returns nil, never calls [GetAccessToken], and
    [ProxyRequest] hands the request to the backend with the credential
    [Bearer ]; with a backend that answers 200, the caller gets that 200 and
    [FailRequest] is never called. *)
Theorem C1_empty_token_is_forwarded :
  tp_empty O = ("", None) /\
  NewHandler (Some (sample_proxy tp_empty)) (Some tp_empty) (Some (sample_config None))
    = inl (sample_handler tp_empty None) /\
  (forall env th p cfg r ctx σ,
     let h := mkHandler th (Some p) (Some tp_empty) cfg None in
     checkTokenProvider h ctx σ = (Returned None, σ, []) /\
     dispatched (trace_of (ProxyRequest env h r σ)) = [outbound h p "" r] /\
     Header.Values (RHeader (outbound h p "" r)) "Authorization" = ["Bearer "]) /\
  (let x := ProxyRequest env_ok (sample_handler tp_empty None) sample_request
              (fresh empty_writer) in
   result_of x = Returned (RHeader_bearer "" sample_request) /\
   List.filter is_fail_request (trace_of x) = [] /\
   WStatus (writer (world_of x)) = Some 200).
Proof.
  split; [reflexivity|]. split; [reflexivity|]. split.
  - intros env th p cfg r ctx σ h. split; [reflexivity|]. split.
    + apply (ProxyRequest_forwarded env h tp_empty p r σ eq_refl eq_refl).
    + unfold outbound. cbn. by apply Values_Set_eq.
  - cbv zeta. repeat split; vm_compute; reflexivity.
Qed.

(** C2. The provider is absent: the gate is to return an error without
    calling the provider, and both handlers are to answer 503.  The code does
    otherwise: the nil test guards the very call it should prevent, so
    [GetAccessToken] is invoked on the nil interface and the gate panics;
    [ProxyRequest] and [ReadinessCheck] panic with it, nothing but the two
    ends of their span is recorded after the request attributes,
    [FailRequest] is never called and the response writer is not touched. *)
Theorem C2_absent_provider_panics :
  tokenProvider handler_without_provider = None /\
  forall env th px cfg ov r ctx σ,
    let h := mkHandler th px None cfg ov in
    checkTokenProvider h ctx σ = (Panicked nil_dereference, σ, []) /\
    (let x := ProxyRequest env h r σ in
     result_of x = Panicked nil_dereference /\
     List.filter is_fail_request (trace_of x) = [] /\
     dispatched (trace_of x) = [] /\
     world_of x = σ) /\
    (let x := ReadinessCheck h r σ in
     result_of x = Panicked nil_dereference /\
     trace_of x = [SpanStart "ReadinessCheck"; SpanEnd "ReadinessCheck"] /\
     world_of x = σ).
Proof.
  split; [reflexivity|]. intros env th px cfg ov r ctx σ h.
  split; [reflexivity|]. split; cbv zeta; repeat split.
Qed.

(** C3. A handler built by [NewHandler] has a provider, so the gate returns
    nil whatever [GetAccessToken] would answer (it is not even called), and
    [ReadinessCheck] writes 200. *)
Theorem C3_constructed_handler_always_ready px tp cfg h :
  NewHandler px tp cfg = inl h ->
  (forall ctx σ, checkTokenProvider h ctx σ = (Returned None, σ, [])) /\
  (forall r σ,
     let x := ReadinessCheck h r σ in
     result_of x = Returned tt /\
     WStatus (writer (world_of x)) = Some http.StatusOK /\
     WFailure (writer (world_of x)) = WFailure (writer σ) /\
     trace_of x =
       [SpanStart "ReadinessCheck";
        SpanSetAttributes "ReadinessCheck" [attribute.Int "response.status_code" 200];
        CallWriteHeader 200;
        SpanEnd "ReadinessCheck"]).
Proof.
  intros (p & f & c & _ & _ & _ & _ & Hf & _)%NewHandler_inl.
  split.
  - intros ctx σ. by apply checkTokenProvider_present with f.
  - intros r σ. unfold ReadinessCheck. unfold_M.
    cbn. rewrite (checkTokenProvider_present h f _ _ Hf). cbn. auto.
Qed.

Lemma C3_witness :
  (forall ctx σ,
     checkTokenProvider (sample_handler tp_failing None) ctx σ = (Returned None, σ, [])) /\
  (forall r σ,
     let x := ReadinessCheck (sample_handler tp_failing None) r σ in
     result_of x = Returned tt /\
     WStatus (writer (world_of x)) = Some http.StatusOK /\
     WFailure (writer (world_of x)) = WFailure (writer σ) /\
     trace_of x =
       [SpanStart "ReadinessCheck";
        SpanSetAttributes "ReadinessCheck" [attribute.Int "response.status_code" 200];
        CallWriteHeader 200;
        SpanEnd "ReadinessCheck"]).
Proof.
  apply (C3_constructed_handler_always_ready
           (Some (sample_proxy tp_failing)) (Some tp_failing)
           (Some (sample_config None))).
  reflexivity.
Defined.

(** ** Rejection by the gate *)


(** ** One [requests_total] sample per request *)



(** ** The diagnostic body logger *)

Lemma logResponse_failure env ctx res σ :
  let codec := NewEncoderDecoder env in
  let encoding := Header.Get (Header_ res) constants.HEADER_CONTENT_ENCODING in
  (forall err unread,
     Decode codec encoding (Body res) = (inr err, unread) ->
     result_of (logResponse env ctx res σ) = Returned (set_Body unread res)) /\
  (forall d err unread,
     Decode codec encoding (Body res) = (inl d, unread) ->
     Encode codec encoding d = inr err ->
     result_of (logResponse env ctx res σ) = Returned (set_Body unread res)).
Proof.
  cbv zeta. unfold logResponse. unfold_M. unfold result_of. split.
  - intros err unread ->. reflexivity.
  - intros d err unread -> ->. reflexivity.
Qed.

(** C6. When decoding or encoding fails, the response is to be left as it
    was, body bytes included.  The code does otherwise for the body: the
    decoder has read from the body stream before it fails, [logResponse]
    returns early without putting anything back, so the response goes on
    with its [ContentLength] field and [Content-Length] header unchanged
    and a body from which the bytes read are gone. *)
Theorem C6_failed_decode_loses_body :
  let x := logResponse env_ok [] broken_gzip_response (fresh empty_writer) in
  Body broken_gzip_response = [Byte.x6f; Byte.x6f; Byte.x70] /\
  (Decode (NewEncoderDecoder env_ok) "gzip" (Body broken_gzip_response)).1
    = inr (errors.New "gzip: invalid header") /\
  exists res',
    result_of x = Returned res' /\
    Body res' = [] /\
    ContentLength res' = 3 /\
    Header.Get (Header_ res') "Content-Length" = "3".
Proof.
  cbv zeta. split; [reflexivity|]. split; [reflexivity|].
  eexists. split; [vm_compute; reflexivity|].
  repeat split; vm_compute; reflexivity.
Qed.

(** C10. A 500 answer with content-encoding [gzip], decoded and encoded
    again without error by a codec whose decoder undoes its encoder: the body
    is the encoder's output, it decodes to the bytes that were logged, and
    the [ContentLength] field and the [Content-Length] header both hold the
    length of that body.  The same holds when [modifyResponse] runs the
    logger. *)
Theorem C10_gzip_round_trip env ctx res σ d unread buf :
  let codec := NewEncoderDecoder env in
  Header.Get (Header_ res) constants.HEADER_CONTENT_ENCODING = "gzip" ->
  StatusCode res = 500 ->
  (forall data out, Encode codec "gzip" data = inl out ->
     exists rest, Decode codec "gzip" out = (inl data, rest)) ->
  Decode codec "gzip" (Body res) = (inl d, unread) ->
  Encode codec "gzip" d = inl buf ->
  let restored r' :=
    Body r' = buf /\
    (Decode codec "gzip" (Body r')).1 = inl d /\
    ContentLength r' = Z.of_nat (length buf) /\
    Header.Values (Header_ r') constants.HEADER_CONTENT_LENGTH
      = [strconv.Itoa (Z.of_nat (length buf))] /\
    Header.Get (Header_ r') constants.HEADER_CONTENT_ENCODING = "gzip" in
  (exists r', result_of (logResponse env ctx res σ) = Returned r' /\ restored r') /\
  (exists r', result_of (modifyResponse env res σ) = Returned (r', None) /\ restored r').
Proof.
  cbv zeta. intros Hgz Hst Hlaw Hd He.
  destruct (Hlaw d buf He) as [rest Hback].
  assert (Hne : textproto.CanonicalMIMEHeaderKey constants.HEADER_CONTENT_ENCODING
                <> textproto.CanonicalMIMEHeaderKey constants.HEADER_CONTENT_LENGTH)
    by (vm_compute; discriminate).
  assert (Hne' : textproto.CanonicalMIMEHeaderKey "Status-Code"
                 <> textproto.CanonicalMIMEHeaderKey constants.HEADER_CONTENT_ENCODING)
    by (vm_compute; discriminate).
  split.
  - unfold logResponse. unfold_M. unfold result_of. rewrite Hgz, Hd. cbn.
    rewrite He. cbn. eexists. split; [reflexivity|]. cbn.
    rewrite Hback, Get_Set_eq, Values_Set_ne, Values_Set_eq by done. auto.
  - unfold modifyResponse, logResponse. unfold_M. unfold result_of. cbn.
    rewrite Hst. cbn. rewrite Get_Set_ne, Hgz, Hd by done. cbn. rewrite He. cbn.
    destruct (Int64Counter env constants.METRIC_REQUESTS_TOTAL),
      (Int64Counter env constants.METRIC_RESPONSE_BYTES_TOTAL); cbn;
      (eexists; split; [reflexivity|]; cbn;
       rewrite Hback, Get_Set_eq, Values_Set_ne, Values_Set_eq by done; auto).
Qed.

Lemma frame_codec_law data out :
  Encode frame_codec "gzip" data = inl out ->
  exists rest, Decode frame_codec "gzip" out = (inl data, rest).
Proof. intros [= <-]. by exists []. Qed.

Lemma C10_witness :
  let restored r' :=
    Body r' = [Byte.x1f; Byte.x8b; Byte.x6f; Byte.x6f; Byte.x70] /\
    (Decode frame_codec "gzip" (Body r')).1 = inl [Byte.x6f; Byte.x6f; Byte.x70] /\
    ContentLength r' = 5 /\
    Header.Values (Header_ r') constants.HEADER_CONTENT_LENGTH = ["5"] /\
    Header.Get (Header_ r') constants.HEADER_CONTENT_ENCODING = "gzip" in
  (exists r', result_of (logResponse env_ok [] gzip_response (fresh empty_writer))
              = Returned r' /\ restored r') /\
  (exists r', result_of (modifyResponse env_ok gzip_response (fresh empty_writer))
              = Returned (r', None) /\ restored r').
Proof.
  apply (C10_gzip_round_trip env_ok [] gzip_response (fresh empty_writer)
           [Byte.x6f; Byte.x6f; Byte.x70] []
           [Byte.x1f; Byte.x8b; Byte.x6f; Byte.x6f; Byte.x70]).
  - vm_compute; reflexivity.
  - reflexivity.
  - exact frame_codec_law.
  - reflexivity.
  - reflexivity.
Defined.

(** ** The outbound request *)







(** ** Dispatch failures *)

Lemma lookup_existsb (P : event -> bool) (es : list event) i e :
  es !! i = Some e -> P e = true -> existsb P es = true.
Proof.
  intros Hl HP. apply existsb_exists. exists e. split; [|done].
  apply list_elem_of_In, list_elem_of_lookup. by exists i.
Qed.

(** C9, as worded, fails: when the [requests_total] counter cannot be
    acquired, [handleError] answers with the uniform failure and emits no
    sample. *)
Lemma C9_counterexample : ~ handleError_always_counts.
Proof.
  intros H.
  destruct (H env_no_meter sample_request (errors.New "dial tcp: connection refused")
              (fresh empty_writer)) as (i & j & tag & err & Hi & _).
  apply (lookup_existsb is_requests_total) in Hi; [|reflexivity].
  vm_compute in Hi. discriminate Hi.
Qed.

(** C9, amended. [handleError] takes the status from the [Status-Code]
    header of the response writer, 503 when the header is absent or does not
    parse as a 32-bit decimal; when the [requests_total] counter is acquired
    it emits one sample keyed by target host, method, path, user agent and
    that status, and after it calls [FailRequest] with the same status. *)
Theorem C9_handleError_counts_then_fails env q e σ :
  Int64Counter env constants.METRIC_REQUESTS_TOTAL = None ->
  let status := dispatch_status (writer σ) in
  let hdr := Header.Get (WHeader (writer σ)) constants.HEADER_STATUS_CODE in
  (WHeader (writer σ) !! "Status-Code" = None -> status = 503) /\
  (forall v err, strconv.ParseInt_10_32 hdr = (v, Some err) -> status = 503) /\
  (forall v, strconv.ParseInt_10_32 hdr = (v, None) -> status = v) /\
  requests_total_samples (trace_of (handleError env q e σ))
    = [requests_total_sample q status] /\
  List.filter is_fail_request (trace_of (handleError env q e σ))
    = [CallFailRequest status e (Some e)] /\
  counted_then_failed (trace_of (handleError env q e σ)) q status /\
  WStatus (writer (world_of (handleError env q e σ))) = Some status.
Proof.
  intros Hm. cbv zeta. split; [|split; [|split; [|split]]].
  - intros Ha. by apply dispatch_status_absent.
  - intros v err Hp. unfold dispatch_status. by rewrite Hp.
  - intros v Hp. unfold dispatch_status. by rewrite Hp.
  - by apply handleError_samples.
  - unfold handleError, dispatch_status, counted_then_failed, requests_total_sample.
    unfold_M. unfold trace_of, world_of. cbn. rewrite Hm. cbn.
    destruct (strconv.ParseInt_10_32 _) as [v [err|]]; cbn.
    + split; [reflexivity|]. split; [|reflexivity].
      exists 6%nat, 7%nat, e, (Some e). repeat split. lia.
    + split; [reflexivity|]. split; [|reflexivity].
      exists 5%nat, 6%nat, e, (Some e). repeat split. lia.
Qed.

Lemma C9_witness :
  let x := handleError env_refused sample_request
             (errors.New "dial tcp: connection refused") (fresh empty_writer) in
  requests_total_samples (trace_of x) = [requests_total_sample sample_request 503] /\
  List.filter is_fail_request (trace_of x)
    = [CallFailRequest 503 "dial tcp: connection refused"
         (Some "dial tcp: connection refused")] /\
  counted_then_failed (trace_of x) sample_request 503 /\
  WStatus (writer (world_of x)) = Some 503.
Proof.
  cbv zeta.
  apply (C9_handleError_counts_then_fails env_refused sample_request
           (errors.New "dial tcp: connection refused") (fresh empty_writer)
           eq_refl).
Defined.

(** ** Decimal numerals *)

Section decimal.
Import strconv.

Lemma digit_val_char d : 0 <= d < 10 -> digit_val (digit_char d) = Some d.
Proof.
  intros Hd.
  assert (d = 0 \/ d = 1 \/ d = 2 \/ d = 3 \/ d = 4 \/ d = 5 \/ d = 6 \/ d = 7
          \/ d = 8 \/ d = 9) as Hc by lia.
  repeat (destruct Hc as [-> | Hc]; [reflexivity|]). by subst.
Qed.

Lemma digit_val_not_sign c d :
  digit_val c = Some d -> Ascii.eqb c "+" = false /\ Ascii.eqb c "-" = false.
Proof.
  unfold digit_val. intros H.
  split; apply Ascii.eqb_neq; intros ->; vm_compute in H; discriminate.
Qed.

Lemma utoa_val fuel : forall n acc,
  0 <= n < 2 ^ Z.of_nat fuel ->
  digits_val 0 (utoa fuel n acc) = digits_val n acc.
Proof.
  induction fuel as [|fuel IH]; intros n acc Hn.
  - cbn in *. by replace n with 0 by lia.
  - cbn [utoa]. rewrite Nat2Z.inj_succ, Z.pow_succ_r in Hn by lia.
    assert (Hd : digit_val (digit_char (n mod 10)) = Some (n mod 10))
      by (apply digit_val_char, Z.mod_pos_bound; lia).
    destruct (n <? 10) eqn:Hlt.
    + apply Z.ltb_lt in Hlt. cbn [digits_val]. rewrite Hd.
      rewrite Z.mod_small by lia. done.
    + apply Z.ltb_ge in Hlt. rewrite IH.
      * cbn [digits_val]. rewrite Hd. f_equal.
        pose proof (Z.div_mod n 10). lia.
      * split; [apply Z.div_pos; lia|].
        apply Z.div_lt_upper_bound; lia.
Qed.

Lemma utoa_head fuel : forall n acc,
  0 <= n ->
  (fuel = O -> exists c s d, acc = String c s /\ digit_val c = Some d) ->
  exists c s d, utoa fuel n acc = String c s /\ digit_val c = Some d.
Proof.
  induction fuel as [|fuel IH]; intros n acc Hn Hacc; [by apply Hacc|].
  cbn [utoa].
  assert (Hd : digit_val (digit_char (n mod 10)) = Some (n mod 10))
    by (apply digit_val_char, Z.mod_pos_bound; lia).
  destruct (n <? 10); [by eauto|].
  apply IH; [apply Z.div_pos; lia|]. eauto.
Qed.

Lemma ParseInt_digits c s un :
  (exists d, digit_val c = Some d) ->
  digits_val 0 (String c s) = Some un -> 0 <= un < 2 ^ 31 ->
  ParseInt_10_32 (String c s) = (un, None).
Proof.
  intros [d Hd] Hv Hr. unfold ParseInt_10_32.
  destruct (digit_val_not_sign c d Hd) as [-> ->]. rewrite Hv.
  cbn [negb andb]. destruct (2 ^ 31 <=? un) eqn:E; [apply Z.leb_le in E; lia|done].
Qed.

Lemma ParseInt_minus c s un :
  digits_val 0 (String c s) = Some un -> 0 <= un <= 2 ^ 31 ->
  ParseInt_10_32 (String "-" (String c s)) = (- un, None).
Proof.
  intros Hv Hr. unfold ParseInt_10_32. cbn [Ascii.eqb Bool.eqb].
  rewrite Hv. cbn [negb andb].
  destruct (2 ^ 31 <? un) eqn:E; [apply Z.ltb_lt in E; lia|done].
Qed.

Lemma fuel_enough n : 0 <= n -> n < 2 ^ Z.of_nat (S (Z.to_nat (Z.log2 n))).
Proof.
  intros Hn. rewrite Nat2Z.inj_succ, Z2Nat.id by apply Z.log2_nonneg.
  destruct (decide (n = 0)) as [->|]; [done|].
  apply Z.log2_spec. lia.
Qed.

(** What [Itoa] prints, [ParseInt] reads back, on the 32-bit range. *)
Lemma ParseInt_Itoa n :
  - 2 ^ 31 <= n < 2 ^ 31 -> ParseInt_10_32 (Itoa n) = (n, None).
Proof.
  intros Hn. unfold Itoa. destruct (n <? 0) eqn:Hneg.
  - apply Z.ltb_lt in Hneg.
    destruct (utoa_head (S (Z.to_nat (Z.log2 (- n)))) (- n) "") as (c & s & d & E & Hd);
      [lia|done|].
    rewrite E. rewrite (ParseInt_minus c s (- n)); [f_equal; lia| |lia].
    rewrite <- E, utoa_val; [done|]. split; [lia|]. apply fuel_enough. lia.
  - apply Z.ltb_ge in Hneg.
    destruct (utoa_head (S (Z.to_nat (Z.log2 n))) n "") as (c & s & d & E & Hd);
      [lia|done|].
    rewrite E. apply ParseInt_digits; [eauto| |lia].
    rewrite <- E, utoa_val; [done|]. split; [lia|]. by apply fuel_enough.
Qed.

End decimal.

(** ** The constructor *)

(** X1. [NewHandler] keeps what it is given, takes the target host from the
    configuration, and normalises the overrides: the handler holds the
    configured map when it has entries and nil otherwise, never an empty
    map. *)
Theorem NewHandler_builds px tp cfg h :
  NewHandler px tp cfg = inl h ->
  proxy h = px /\ tokenProvider h = tp /\ configuration h = cfg /\
  is_Some px /\ is_Some tp /\
  overrideHeaders h <> Some [] /\
  exists c, cfg = Some c /\ targetHost h = GetTargetHost c /\
    (forall kv l, GetAdditionalHeaders c = Some (kv :: l) ->
       overrideHeaders h = Some (kv :: l)) /\
    (GetAdditionalHeaders c = None \/ GetAdditionalHeaders c = Some [] ->
       overrideHeaders h = None).
Proof.
  unfold NewHandler. destruct px as [p|], tp as [f|], cfg as [c|]; try discriminate.
  intros [= <-]. cbn. split; [done|]. split; [done|]. split; [done|].
  split; [by eexists|]. split; [by eexists|]. split.
  - by destruct (GetAdditionalHeaders c) as [[|]|].
  - exists c. split; [done|]. split; [done|]. split.
    + by intros kv l ->.
    + by intros [-> | ->].
Qed.

Lemma NewHandler_builds_witness :
  let h := sample_handler tp_token (Some [("X-A", "configured")]) in
  proxy h = Some (sample_proxy tp_token) /\ tokenProvider h = Some tp_token /\
  configuration h = Some (sample_config (Some [("X-A", "configured")])) /\
  is_Some (Some (sample_proxy tp_token)) /\ is_Some (Some tp_token) /\
  overrideHeaders h <> Some [] /\
  exists c, Some (sample_config (Some [("X-A", "configured")])) = Some c /\
    targetHost h = GetTargetHost c /\
    (forall kv l, GetAdditionalHeaders c = Some (kv :: l) ->
       overrideHeaders h = Some (kv :: l)) /\
    (GetAdditionalHeaders c = None \/ GetAdditionalHeaders c = Some [] ->
       overrideHeaders h = None).
Proof.
  apply (NewHandler_builds (Some (sample_proxy tp_token)) (Some tp_token)
           (Some (sample_config (Some [("X-A", "configured")])))).
  reflexivity.
Defined.

(** X2. [NewHandler] refuses a nil argument, and names the first one that is
    nil in the order proxy, token provider, configuration; with none nil it
    returns a handler and no error. *)
Theorem NewHandler_rejects_nil :
  (forall tp cfg, NewHandler None tp cfg = inr (errors.New "proxy cannot be nil")) /\
  (forall p cfg,
     NewHandler (Some p) None cfg = inr (errors.New "tokenProvider cannot be nil")) /\
  (forall p f,
     NewHandler (Some p) (Some f) None
     = inr (errors.New "configuration cannot be nil")) /\
  (forall p f c, exists h, NewHandler (Some p) (Some f) (Some c) = inl h).
Proof.
  split; [|split; [|split]].
  - reflexivity.
  - by intros p [c|].
  - reflexivity.
  - intros p f c. eexists. reflexivity.
Qed.

(** ** The Director *)

(** X3. [modifyRequest] always returns; the request goes out with scheme
    https and the target as URL host and as Host, everything else (method,
    path, query, headers, content length, context) as it came; the token
    provider it is handed is never called, the response writer is not
    touched, and rewriting a rewritten request changes nothing. *)
Theorem modifyRequest_rewrites env q th tp σ :
  let x := modifyRequest env q th tp σ in
  result_of x = Returned (rewrite_target th q) /\
  world_of x = σ /\
  Scheme (RURL (rewrite_target th q)) = "https" /\
  UHost (RURL (rewrite_target th q)) = th /\
  RHost (rewrite_target th q) = th /\
  Path (RURL (rewrite_target th q)) = Path (RURL q) /\
  RawQuery (RURL (rewrite_target th q)) = RawQuery (RURL q) /\
  Method (rewrite_target th q) = Method q /\
  RHeader (rewrite_target th q) = RHeader q /\
  RContentLength (rewrite_target th q) = RContentLength q /\
  RContext (rewrite_target th q) = RContext q /\
  result_of (modifyRequest env (rewrite_target th q) th tp σ)
    = Returned (rewrite_target th q).
Proof.
  cbv zeta. unfold modifyRequest. unfold_M. unfold result_of, world_of. cbn.
  destruct (Int64Counter env constants.METRIC_REQUEST_BYTES_TOTAL); cbn;
    by repeat split.
Qed.

(** X4. [modifyRequest] records the content length of the request in
    [request_bytes_total], keyed by the target host (not the host the
    request came for), once, if the counter is acquired; otherwise it
    records nothing.  Its span is closed either way. *)
Theorem modifyRequest_samples env q th tp σ :
  let x := modifyRequest env q th tp σ in
  samples (trace_of x)
  = (if is_nil (Int64Counter env constants.METRIC_REQUEST_BYTES_TOTAL)
     then [CounterAdd constants.METRIC_REQUEST_BYTES_TOTAL (RContentLength q)
             (request_attributes th q)]
     else []) /\
  spans_nested [] (trace_of x) = true.
Proof.
  cbv zeta. unfold modifyRequest. unfold_M. unfold trace_of. cbn.
  destruct (Int64Counter env constants.METRIC_REQUEST_BYTES_TOTAL); cbn; by split.
Qed.

(** ** The response interceptor and the body logger *)

Lemma status_code_key_ne :
  textproto.CanonicalMIMEHeaderKey constants.HEADER_CONTENT_LENGTH
    <> textproto.CanonicalMIMEHeaderKey "Status-Code" /\
  textproto.CanonicalMIMEHeaderKey constants.HEADER_CONTENT_ENCODING
    <> textproto.CanonicalMIMEHeaderKey "Status-Code" /\
  textproto.CanonicalMIMEHeaderKey constants.HEADER_CONTENT_ENCODING
    <> textproto.CanonicalMIMEHeaderKey constants.HEADER_CONTENT_LENGTH.
Proof. repeat split; vm_compute; discriminate. Qed.

(** X5. [modifyResponse] never fails and never panics: it returns the
    response and a nil error; the status code and the request of the
    response are as they came, whatever the status and the codec; the header
    [Status-Code] holds the status in decimal as its only value; the token
    provider and the response writer are not touched. *)
Theorem modifyResponse_never_fails env res σ :
  exists r',
    modifyResponse env res σ = (Returned (r', None), σ, trace_of (modifyResponse env res σ)) /\
    StatusCode r' = StatusCode res /\
    Request_ r' = Request_ res /\
    Header.Values (Header_ r') "Status-Code" = [strconv.Itoa (StatusCode res)] /\
    spans_nested [] (trace_of (modifyResponse env res σ)) = true.
Proof.
  destruct status_code_key_ne as (Hl & He & _).
  unfold modifyResponse, logResponse. unfold_M. unfold trace_of. cbn.
  split_run; (eexists; split; [reflexivity|]); cbn;
    rewrite ?Values_Set_ne by done; by rewrite Values_Set_eq.
Qed.

(** X6. Below status 400 [modifyResponse] does not read the body: the codec
    is not consulted, nothing is logged at error level, and the response
    comes back with its body, content length and headers as they were, but
    for the [Status-Code] header. *)
Theorem modifyResponse_below_400 env res σ :
  StatusCode res < 400 ->
  result_of (modifyResponse env res σ)
  = Returned
      (set_Header (Header.Set_ (Header_ res) "Status-Code"
                     (strconv.Itoa (StatusCode res))) res, None) /\
  List.filter is_log (trace_of (modifyResponse env res σ))
  = [LogInfoln ["Successfully sent request, returning response back."]].
Proof.
  intros Hlt. unfold modifyResponse. unfold_M. unfold result_of, trace_of. cbn.
  replace (http.StatusBadRequest <=? StatusCode res) with false
    by (symmetry; apply Z.leb_gt; exact Hlt).
  cbn. by split_run.
Qed.

Lemma modifyResponse_below_400_witness :
  result_of (modifyResponse env_ok (mkResponse 200 ∅ [Byte.x6f; Byte.x6b] 2 sample_request)
               (fresh empty_writer))
  = Returned
      (set_Header (Header.Set_ ∅ "Status-Code" (strconv.Itoa 200))
         (mkResponse 200 ∅ [Byte.x6f; Byte.x6b] 2 sample_request), None) /\
  List.filter is_log
    (trace_of (modifyResponse env_ok
                 (mkResponse 200 ∅ [Byte.x6f; Byte.x6b] 2 sample_request)
                 (fresh empty_writer)))
  = [LogInfoln ["Successfully sent request, returning response back."]].
Proof.
  apply (modifyResponse_below_400 env_ok
           (mkResponse 200 ∅ [Byte.x6f; Byte.x6b] 2 sample_request)
           (fresh empty_writer)).
  reflexivity.
Defined.

(** X7. The samples of [modifyResponse] depend on the two counters alone,
    each on its own: [requests_total] by one, [response_bytes_total] by the
    content length the response declared on arrival, both keyed by the
    status of the response; neither the status nor the outcome of the body
    logger adds or removes a sample. *)
Theorem modifyResponse_samples_independent env res σ :
  let attrs :=
    (request_attributes (UHost (RURL (Request_ res))) (Request_ res)
       ++ [attribute.Int "status_code" (StatusCode res)])%list in
  samples (trace_of (modifyResponse env res σ))
  = ((if is_nil (Int64Counter env constants.METRIC_REQUESTS_TOTAL)
      then [CounterAdd constants.METRIC_REQUESTS_TOTAL 1 attrs] else [])
     ++ (if is_nil (Int64Counter env constants.METRIC_RESPONSE_BYTES_TOTAL)
         then [CounterAdd constants.METRIC_RESPONSE_BYTES_TOTAL (ContentLength res) attrs]
         else []))%list.
Proof.
  cbv zeta. unfold modifyResponse, logResponse. unfold_M. unfold trace_of. cbn.
  destruct (Int64Counter env constants.METRIC_REQUESTS_TOTAL),
    (Int64Counter env constants.METRIC_RESPONSE_BYTES_TOTAL); cbn; by split_run.
Qed.

(** X8. The status signal, written and read: for a status in the 32-bit
    range, the [Status-Code] header that [modifyResponse] leaves on the
    response parses back, with [strconv.ParseInt(_, 10, 32)], to the status
    and no error. *)
Theorem modifyResponse_status_parses_back env res σ :
  - 2 ^ 31 <= StatusCode res < 2 ^ 31 ->
  exists r',
    result_of (modifyResponse env res σ) = Returned (r', None) /\
    strconv.ParseInt_10_32 (Header.Get (Header_ r') "Status-Code")
    = (StatusCode res, None).
Proof.
  intros Hr. destruct (modifyResponse_never_fails env res σ) as (r' & E & _ & _ & Hv & _).
  exists r'. split; [by rewrite E|].
  rewrite Get_Values, Hv. cbn [hd]. by apply ParseInt_Itoa.
Qed.

Lemma modifyResponse_status_parses_back_witness :
  exists r',
    result_of (modifyResponse env_ok gzip_response (fresh empty_writer))
    = Returned (r', None) /\
    strconv.ParseInt_10_32 (Header.Get (Header_ r') "Status-Code") = (500, None).
Proof.
  apply (modifyResponse_status_parses_back env_ok gzip_response (fresh empty_writer)).
  simpl. lia.
Defined.

(** X9. When decoding and encoding succeed, for any content encoding,
    [logResponse] puts the encoder's output in the body, its length in the
    [ContentLength] field and in [Content-Length], and sets
    [Content-Encoding] to the single value it read: the first value of the
    header, or the empty string when the response had no such header.  No
    other header, and neither the status nor the request, changes. *)
Theorem logResponse_success env ctx res σ d unread buf :
  let encoding := Header.Get (Header_ res) constants.HEADER_CONTENT_ENCODING in
  Decode (NewEncoderDecoder env) encoding (Body res) = (inl d, unread) ->
  Encode (NewEncoderDecoder env) encoding d = inl buf ->
  exists r',
    result_of (logResponse env ctx res σ) = Returned r' /\
    Body r' = buf /\
    ContentLength r' = Z.of_nat (length buf) /\
    Header.Values (Header_ r') "Content-Length" = [strconv.Itoa (Z.of_nat (length buf))] /\
    Header.Values (Header_ r') "Content-Encoding" = [encoding] /\
    (forall k,
       textproto.CanonicalMIMEHeaderKey k <> "Content-Length" ->
       textproto.CanonicalMIMEHeaderKey k <> "Content-Encoding" ->
       Header.Values (Header_ r') k = Header.Values (Header_ res) k) /\
    StatusCode r' = StatusCode res /\ Request_ r' = Request_ res.
Proof.
  cbv zeta. intros Hd He. destruct status_code_key_ne as (_ & _ & Hne).
  unfold logResponse. unfold_M. unfold result_of. rewrite Hd. cbn. rewrite He. cbn.
  eexists. split; [reflexivity|]. cbn.
  split; [done|]. split; [done|]. split; [|split; [|split]].
  - rewrite Values_Set_ne by done. by apply Values_Set_eq.
  - by apply Values_Set_eq.
  - intros k Hk1 Hk2. rewrite !Values_Set_ne; [done| |].
    + intros E. apply Hk1. by rewrite <- E.
    + intros E. apply Hk2. by rewrite <- E.
  - done.
Qed.

Lemma logResponse_success_witness :
  exists r',
    result_of (logResponse env_ok [] plain_404_response (fresh empty_writer))
    = Returned r' /\
    Body r' = [Byte.x6e; Byte.x6f] /\
    ContentLength r' = 2 /\
    Header.Values (Header_ r') "Content-Length" = ["2"] /\
    Header.Values (Header_ r') "Content-Encoding" = [""] /\
    (forall k,
       textproto.CanonicalMIMEHeaderKey k <> "Content-Length" ->
       textproto.CanonicalMIMEHeaderKey k <> "Content-Encoding" ->
       Header.Values (Header_ r') k = Header.Values (Header_ plain_404_response) k) /\
    StatusCode r' = 404 /\ Request_ r' = sample_request.
Proof.
  apply (logResponse_success env_ok [] plain_404_response (fresh empty_writer)
           [Byte.x6e; Byte.x6f] [] [Byte.x6e; Byte.x6f]).
  - reflexivity.
  - reflexivity.
Defined.

(** X10. [logResponse] does nothing but log, at error level: the decoding
    error when decoding fails, otherwise the decoded body, once, followed by
    the encoding error if encoding fails.  It never panics and leaves the
    token provider and the response writer alone. *)
Theorem logResponse_only_logs env ctx res σ :
  let x := logResponse env ctx res σ in
  let encoding := Header.Get (Header_ res) constants.HEADER_CONTENT_ENCODING in
  (exists r', result_of x = Returned r') /\
  world_of x = σ /\
  match (Decode (NewEncoderDecoder env) encoding (Body res)).1 with
  | inr err => trace_of x = [LogErrorln ["Failed to decode response body"; err]]
  | inl d =>
      match Encode (NewEncoderDecoder env) encoding d with
      | inr err =>
          trace_of x = [LogErrorln ["Error response body: "; string_of_list_byte d];
                        LogErrorln ["Failed to encode response body"; err]]
      | inl _ =>
          trace_of x = [LogErrorln ["Error response body: "; string_of_list_byte d]]
      end
  end.
Proof.
  cbv zeta. unfold logResponse. unfold_M. unfold result_of, world_of, trace_of.
  destruct (Decode _ _ _) as [[d|err] unread]; cbn; [|by eauto].
  destruct (Encode _ _ _) as [buf|err]; cbn; by eauto.
Qed.

(** ** The proxying primitive and the handler, piece by piece *)

Lemma spans_nested_app_log open es rest :
  Forall (fun e => match e with SpanStart _ | SpanEnd _ => False | _ => True end) es ->
  spans_nested open (es ++ rest) = spans_nested open rest.
Proof.
  induction 1 as [|e es He _ IH]; [done|]. cbn. by destruct e.
Qed.

Lemma ServeHTTP_quiet env p q σ :
  result_of (ServeHTTP env p q σ) = Returned tt /\ quiet (ServeHTTP env p q σ) σ.
Proof.
  unfold quiet, ServeHTTP, modifyRequest, handleError, modifyResponse, logResponse, relay.
  unfold_M. unfold result_of, world_of, trace_of, duration_samples. cbn.
  split_run; by repeat split.
Qed.

Lemma ServeHTTP_calm env p q σ :
  result_of (ServeHTTP env p q σ) = result_of (ServeHTTP (calm env) p q σ) /\
  world_of (ServeHTTP env p q σ) = world_of (ServeHTTP (calm env) p q σ) /\
  without_samples (trace_of (ServeHTTP env p q σ))
  = without_samples (trace_of (ServeHTTP (calm env) p q σ)).
Proof.
  unfold ServeHTTP, modifyRequest, handleError, modifyResponse, logResponse, relay, calm.
  unfold_M. unfold result_of, world_of, trace_of. cbn.
  split_run; by repeat split.
Qed.

Lemma record_duration_run env h r σ :
  record_duration env h r σ
  = (Returned tt, σ,
     (match strconv.ParseInt_10_32 (Header.Get (WHeader (writer σ)) "Status-Code") with
      | (_, None) => []
      | (_, Some _) =>
          [LogErrorln ["Failed to parse status code, assuming status code 0"]]
      end
      ++ if is_nil (Int64Histogram env constants.METRIC_REQUEST_DURATION_MILLISECONDS)
         then [duration_sample h r (elapsed_ms env)
                 (match strconv.ParseInt_10_32
                          (Header.Get (WHeader (writer σ)) "Status-Code") with
                  | (v, None) => v
                  | (_, Some _) => 0
                  end)]
         else [])%list).
Proof.
  unfold record_duration, duration_sample, request_attributes. unfold_M. cbn.
  by split_run.
Qed.

(** [ProxyRequest] on a handler that has a provider and a proxy, in terms of
    the run of the proxying primitive. *)
Lemma ProxyRequest_run env h f p r σ :
  tokenProvider h = Some f -> proxy h = Some p ->
  let r' := forwarded_request h (f (tp_calls σ)).1 r in
  let served :=
    ServeHTTP env p (WithContext ("ProxyRequest" :: RContext r) r')
      (mkWorld (S (tp_calls σ)) (writer σ)) in
  let timed := record_duration env h r' (world_of served) in
  ProxyRequest env h r σ
  = (match result_of served with
     | Returned _ => Returned r'
     | Panicked s => Panicked s
     end,
     world_of timed,
     (SpanStart "ProxyRequest"
        :: SpanSetAttributes "ProxyRequest" (request_span_attributes r)
        :: CallGetAccessToken
        :: trace_of served ++ trace_of timed ++ [SpanEnd "ProxyRequest"])%list).
Proof.
  intros Hf Hp. cbv zeta.
  unfold ProxyRequest, ProxyRequest_forward, checkTokenProvider.
  rewrite Hf, Hp. unfold_M. unfold forwarded_request, RHeader_bearer. cbn.
  destruct (f (tp_calls σ)) as [token err0]. cbn.
  destruct (overrideHeaders h) as [ov|]; cbn.
  all: match goal with |- context [ServeHTTP ?e ?p ?q ?s] =>
         destruct (ServeHTTP e p q s) as [[[[]|reason] σ2] es2] end; cbn.
  all: match goal with |- context [record_duration ?e ?h ?q ?s] =>
         destruct (record_duration e h q s) as [[res3 σ3] es3] end; cbn.
  all: unfold result_of, world_of, trace_of; cbn; rewrite <- ?app_assoc; reflexivity.
Qed.

Lemma ProxyRequest_parts env h f p r σ :
  tokenProvider h = Some f -> proxy h = Some p ->
  let x := ProxyRequest env h r σ in
  let r' := forwarded_request h (f (tp_calls σ)).1 r in
  result_of x = Returned r' /\
  world_of x = world_of (served env h f p r σ) /\
  trace_of x
  = (SpanStart "ProxyRequest"
       :: SpanSetAttributes "ProxyRequest" (request_span_attributes r)
       :: CallGetAccessToken
       :: trace_of (served env h f p r σ)
       ++ trace_of (record_duration env h r' (world_of (served env h f p r σ)))
       ++ [SpanEnd "ProxyRequest"])%list.
Proof.
  intros Hf Hp. cbv zeta. unfold served.
  pose proof (ProxyRequest_run env h f p r σ Hf Hp) as E.
  cbv zeta in E. rewrite E.
  unfold result_of at 1. unfold world_of at 1. unfold trace_of at 1.
  cbn [fst snd]. rewrite (proj1 (ServeHTTP_quiet _ _ _ _)).
  split; [done|]. split; [by rewrite record_duration_run|]. done.
Qed.



(** What the proxying primitive leaves on the response writer when the
    backend cannot be reached. *)
Lemma ServeHTTP_refused env p q e σ :
  transport env (rewrite_target (proxy_targetHost p) q) = inr e ->
  let x := ServeHTTP env p q σ in
  WStatus (writer (world_of x)) = Some (dispatch_status (writer σ)) /\
  WFailure (writer (world_of x)) = Some (mkFailure e (Some e)) /\
  WHeader (writer (world_of x)) = WHeader (writer σ) /\
  WBody (writer (world_of x)) = WBody (writer σ) /\
  List.filter is_fail_request (trace_of x)
  = [CallFailRequest (dispatch_status (writer σ)) e (Some e)].
Proof.
  intros Ht. cbv zeta.
  unfold ServeHTTP, modifyRequest, handleError, dispatch_status.
  unfold_M. unfold world_of, trace_of. cbn.
  change (mkRequest (RContext q) (Method q)
            (mkURL constants.HTTPS_SCHEME (proxy_targetHost p) (Path (RURL q))
               (RawQuery (RURL q)))
            (proxy_targetHost p) (RHeader q) (RContentLength q))
    with (rewrite_target (proxy_targetHost p) q).
  destruct (Int64Counter env constants.METRIC_REQUEST_BYTES_TOTAL); cbn;
    rewrite Ht; cbn; by split_run.
Qed.

Lemma outbound_rewrite h p token r :
  outbound h p token r
  = rewrite_target (proxy_targetHost p)
      (WithContext ("ProxyRequest" :: RContext r) (forwarded_request h token r)).
Proof.
  unfold outbound, rewrite_target, forwarded_request, RHeader_bearer, WithContext.
  by destruct (overrideHeaders h).
Qed.

Lemma filter_app_nil {A} (P : A -> bool) (l1 l2 : list A) :
  List.filter P l1 = [] -> List.filter P (l1 ++ l2) = List.filter P l2.
Proof. intros H. by rewrite List.filter_app, H. Qed.


(** ** A forwarded request, end to end *)



(** X12. With a proxy made by [CreateReverseProxy] for [target], a request
    that passes the gate reaches the transport with scheme https and
    [target] as URL host and as Host, whatever host and scheme it came for,
    and with its method, path, query and content length. *)
Theorem forwarded_to_target env env' h f p target tp' r σ :
  CreateReverseProxy env' target tp' = inl p ->
  tokenProvider h = Some f -> proxy h = Some p ->
  exists q,
    dispatched (trace_of (ProxyRequest env h r σ)) = [q] /\
    Scheme (RURL q) = "https" /\ UHost (RURL q) = target /\ RHost q = target /\
    Method q = Method r /\ Path (RURL q) = Path (RURL r) /\
    RawQuery (RURL q) = RawQuery (RURL r) /\
    RContentLength q = RContentLength r.
Proof.
  unfold CreateReverseProxy. destruct (url_Parse env' target); [discriminate|].
  intros [= <-] Hf Hp. eexists. split.
  - apply (ProxyRequest_forwarded env h f _ r σ Hf Hp).
  - unfold outbound. cbn. by repeat split.
Qed.

Lemma forwarded_to_target_witness :
  exists q,
    dispatched (trace_of (ProxyRequest env_ok (sample_handler tp_token None)
                            sample_request (fresh empty_writer))) = [q] /\
    Scheme (RURL q) = "https" /\ UHost (RURL q) = "backend.example" /\
    RHost q = "backend.example" /\
    Method q = "GET" /\ Path (RURL q) = "/widgets" /\ RawQuery (RURL q) = "x=1" /\
    RContentLength q = 0.
Proof.
  apply (forwarded_to_target env_ok env_ok (sample_handler tp_token None) tp_token
           (sample_proxy tp_token) "backend.example" (Some tp_token)
           sample_request (fresh empty_writer)); reflexivity.
Defined.



(** X14. A request that passes the gate records
    [request_duration_milliseconds] once if the histogram is acquired and
    not at all otherwise, whether the backend answers or not.  The sample
    carries the elapsed time, the handler's own target host, the request as
    forwarded, and the status read from the [Status-Code] header of the
    response writer as the proxying primitive left it, 0 when that header
    is missing or does not parse. *)
Theorem one_duration_sample env h f p r σ :
  tokenProvider h = Some f -> proxy h = Some p ->
  let x := ProxyRequest env h r σ in
  duration_samples (trace_of x)
  = if is_nil (Int64Histogram env constants.METRIC_REQUEST_DURATION_MILLISECONDS)
    then [duration_sample h (forwarded_request h (f (tp_calls σ)).1 r)
            (elapsed_ms env) (duration_status (writer (world_of x)))]
    else [].
Proof.
  intros Hf Hp. cbv zeta.
  destruct (ProxyRequest_parts env h f p r σ Hf Hp) as (_ & -> & ->).
  destruct (ServeHTTP_quiet env p
              (WithContext ("ProxyRequest" :: RContext r)
                 (forwarded_request h (f (tp_calls σ)).1 r))
              (mkWorld (S (tp_calls σ)) (writer σ))) as (_ & _ & _ & Hq & _).
  fold (served env h f p r σ) in Hq.
  unfold duration_samples in *. cbn. rewrite filter_app_nil by done.
  rewrite record_duration_run. unfold trace_of, duration_status. cbn.
  destruct (Int64Histogram env constants.METRIC_REQUEST_DURATION_MILLISECONDS); cbn;
    destruct (strconv.ParseInt_10_32 _) as [v [perr|]]; cbn; reflexivity.
Qed.

Lemma one_duration_sample_witness :
  let x := ProxyRequest env_ok (sample_handler tp_token None) sample_request
             (fresh empty_writer) in
  duration_samples (trace_of x)
  = [duration_sample (sample_handler tp_token None)
       (forwarded_request (sample_handler tp_token None) "tok" sample_request)
       7 (duration_status (writer (world_of x)))].
Proof.
  apply (one_duration_sample env_ok (sample_handler tp_token None) tp_token
           (sample_proxy tp_token) sample_request (fresh empty_writer));
    reflexivity.
Defined.



(** X16. When the backend cannot be reached, [ProxyRequest] still returns:
    [FailRequest] is called once, with the status found on the response
    writer (503 when it holds no [Status-Code] header), with the text of
    the transport error as the error code, and with the transport error
    itself. *)
Theorem unreachable_backend_fails_request env h f p r σ e :
  tokenProvider h = Some f -> proxy h = Some p ->
  transport env (outbound h p (f (tp_calls σ)).1 r) = inr e ->
  let x := ProxyRequest env h r σ in
  (exists r', result_of x = Returned r') /\
  List.filter is_fail_request (trace_of x)
  = [CallFailRequest (dispatch_status (writer σ)) e (Some e)] /\
  (WHeader (writer σ) !! "Status-Code" = None ->
   dispatch_status (writer σ) = 503).
Proof.
  intros Hf Hp Ht. cbv zeta. rewrite outbound_rewrite in Ht.
  destruct (ProxyRequest_parts env h f p r σ Hf Hp) as (-> & _ & ->).
  split; [by eexists|]. split.
  - pose proof (ServeHTTP_refused env p _ e
                  (mkWorld (S (tp_calls σ)) (writer σ)) Ht) as (_ & _ & _ & _ & Hc).
    cbv zeta in Hc. fold (served env h f p r σ) in Hc.
    cbn. rewrite List.filter_app, Hc.
    rewrite record_duration_run. unfold trace_of. cbn.
    destruct (Int64Histogram env _); cbn;
      destruct (strconv.ParseInt_10_32 _) as [v [perr|]]; reflexivity.
  - intros Ha. by apply dispatch_status_absent.
Qed.

Lemma unreachable_backend_fails_request_witness :
  let x := ProxyRequest env_refused (sample_handler tp_token None) sample_request
             (fresh empty_writer) in
  (exists r', result_of x = Returned r') /\
  List.filter is_fail_request (trace_of x)
  = [CallFailRequest (dispatch_status empty_writer) "dial tcp: connection refused"
       (Some "dial tcp: connection refused")] /\
  (WHeader empty_writer !! "Status-Code" = None -> dispatch_status empty_writer = 503).
Proof.
  apply (unreachable_backend_fails_request env_refused (sample_handler tp_token None)
           tp_token (sample_proxy tp_token) sample_request (fresh empty_writer)
           (errors.New "dial tcp: connection refused")); reflexivity.
Defined.

(** ** Every path *)

Lemma record_duration_no_span env h r σ rest open :
  spans_nested open (trace_of (record_duration env h r σ) ++ rest)
  = spans_nested open rest.
Proof.
  rewrite record_duration_run. unfold trace_of. cbn.
  destruct (strconv.ParseInt_10_32 _) as [v [perr|]],
    (Int64Histogram env constants.METRIC_REQUEST_DURATION_MILLISECONDS); reflexivity.
Qed.

(** X17. On every path, the panics included, the spans of [ProxyRequest]
    and of [ReadinessCheck] are opened and closed like brackets: the root
    span is the first event and its end the last, and each span opened in
    between is closed before the one around it. *)
Theorem spans_closed_on_every_path env h r σ :
  spans_nested [] (trace_of (ProxyRequest env h r σ)) = true /\
  head (trace_of (ProxyRequest env h r σ)) = Some (SpanStart "ProxyRequest") /\
  last (trace_of (ProxyRequest env h r σ)) = Some (SpanEnd "ProxyRequest") /\
  spans_nested [] (trace_of (ReadinessCheck h r σ)) = true /\
  head (trace_of (ReadinessCheck h r σ)) = Some (SpanStart "ReadinessCheck") /\
  last (trace_of (ReadinessCheck h r σ)) = Some (SpanEnd "ReadinessCheck").
Proof.
  assert (HR : spans_nested [] (trace_of (ReadinessCheck h r σ)) = true /\
               head (trace_of (ReadinessCheck h r σ)) = Some (SpanStart "ReadinessCheck") /\
               last (trace_of (ReadinessCheck h r σ)) = Some (SpanEnd "ReadinessCheck")).
  { unfold ReadinessCheck, checkTokenProvider. unfold_M. unfold trace_of.
    by destruct (tokenProvider h). }
  destruct (tokenProvider h) as [f|] eqn:Hf; [destruct (proxy h) as [p|] eqn:Hp|].
  - destruct (ProxyRequest_parts env h f p r σ Hf Hp) as (_ & _ & ->).
    split; [|split; [done|split; [|done]]].
    + cbn [spans_nested]. unfold served.
      rewrite (proj2 (proj2 (proj2 (proj2 (ServeHTTP_quiet env p _ _))))).
      by rewrite record_duration_no_span.
    + rewrite !app_comm_cons, !app_assoc. apply last_snoc.
  - assert (HP : spans_nested [] (trace_of (ProxyRequest env h r σ)) = true /\
                 head (trace_of (ProxyRequest env h r σ)) = Some (SpanStart "ProxyRequest") /\
                 last (trace_of (ProxyRequest env h r σ)) = Some (SpanEnd "ProxyRequest")).
    { unfold ProxyRequest, ProxyRequest_forward, record_duration, checkTokenProvider.
      rewrite Hf, Hp. unfold_M. unfold trace_of. cbn.
      destruct (f (tp_calls σ)) as [token err0]. cbn.
      destruct (overrideHeaders h); cbn; by split_run. }
    tauto.
  - assert (HP : spans_nested [] (trace_of (ProxyRequest env h r σ)) = true /\
                 head (trace_of (ProxyRequest env h r σ)) = Some (SpanStart "ProxyRequest") /\
                 last (trace_of (ProxyRequest env h r σ)) = Some (SpanEnd "ProxyRequest")).
    { unfold ProxyRequest, checkTokenProvider. rewrite Hf. unfold_M. by unfold trace_of. }
    tauto.
Qed.

Lemma without_samples_app es es' :
  without_samples (es ++ es') = (without_samples es ++ without_samples es')%list.
Proof. apply List.filter_app. Qed.

Lemma record_duration_calm env h r σ :
  without_samples (trace_of (record_duration env h r σ))
  = without_samples (trace_of (record_duration (calm env) h r σ)).
Proof.
  rewrite !record_duration_run. unfold trace_of, calm. cbn.
  destruct (strconv.ParseInt_10_32 _) as [v [perr|]],
    (Int64Histogram env constants.METRIC_REQUEST_DURATION_MILLISECONDS); reflexivity.
Qed.

Lemma ProxyRequest_calm env h r σ :
  result_of (ProxyRequest env h r σ) = result_of (ProxyRequest (calm env) h r σ) /\
  world_of (ProxyRequest env h r σ) = world_of (ProxyRequest (calm env) h r σ) /\
  without_samples (trace_of (ProxyRequest env h r σ))
  = without_samples (trace_of (ProxyRequest (calm env) h r σ)).
Proof.
  destruct (tokenProvider h) as [f|] eqn:Hf; [destruct (proxy h) as [p|] eqn:Hp|].
  - destruct (ProxyRequest_parts env h f p r σ Hf Hp) as (-> & -> & ->).
    destruct (ProxyRequest_parts (calm env) h f p r σ Hf Hp) as (-> & -> & ->).
    destruct (ServeHTTP_calm env p
                (WithContext ("ProxyRequest" :: RContext r)
                   (forwarded_request h (f (tp_calls σ)).1 r))
                (mkWorld (S (tp_calls σ)) (writer σ))) as (_ & Hw & Ht).
    fold (served env h f p r σ) in Hw, Ht.
    fold (served (calm env) h f p r σ) in Hw, Ht.
    split; [done|]. split; [done|].
    cbn. rewrite !without_samples_app, Ht, Hw.
    by rewrite record_duration_calm.
  - unfold ProxyRequest, ProxyRequest_forward, record_duration, checkTokenProvider.
    rewrite Hf, Hp. unfold_M. unfold result_of, world_of, trace_of, calm. cbn.
    destruct (f (tp_calls σ)) as [token err0]. cbn.
    destruct (overrideHeaders h); cbn; by split_run.
  - unfold ProxyRequest, checkTokenProvider. rewrite Hf. unfold_M.
    by unfold result_of, world_of, trace_of.
Qed.

(** X18. Telemetry failures do not change what a request gets: two
    surroundings with the same codec and the same backend, whatever their
    meters and clocks, give [ProxyRequest] the same outcome, the same
    response writer and, samples aside, the same events, for every handler. *)
Theorem meters_do_not_alter_handling env1 env2 h r σ :
  NewEncoderDecoder env1 = NewEncoderDecoder env2 ->
  transport env1 = transport env2 ->
  result_of (ProxyRequest env1 h r σ) = result_of (ProxyRequest env2 h r σ) /\
  world_of (ProxyRequest env1 h r σ) = world_of (ProxyRequest env2 h r σ) /\
  without_samples (trace_of (ProxyRequest env1 h r σ))
  = without_samples (trace_of (ProxyRequest env2 h r σ)).
Proof.
  intros Hc Ht.
  destruct (ProxyRequest_calm env1 h r σ) as (-> & -> & ->).
  destruct (ProxyRequest_calm env2 h r σ) as (-> & -> & ->).
  unfold calm. by rewrite Hc, Ht.
Qed.

Lemma meters_do_not_alter_handling_witness :
  result_of (ProxyRequest env_refused (sample_handler tp_token None) sample_request
               (fresh empty_writer))
  = result_of (ProxyRequest env_no_meter (sample_handler tp_token None) sample_request
                 (fresh empty_writer)) /\
  world_of (ProxyRequest env_refused (sample_handler tp_token None) sample_request
              (fresh empty_writer))
  = world_of (ProxyRequest env_no_meter (sample_handler tp_token None) sample_request
                (fresh empty_writer)) /\
  without_samples
    (trace_of (ProxyRequest env_refused (sample_handler tp_token None) sample_request
                 (fresh empty_writer)))
  = without_samples
      (trace_of (ProxyRequest env_no_meter (sample_handler tp_token None)
                   sample_request (fresh empty_writer))).
Proof.
  apply (meters_do_not_alter_handling env_refused env_no_meter
           (sample_handler tp_token None) sample_request (fresh empty_writer));
    reflexivity.
Defined.

(** X19. The deferred steps run when the dispatch panics: on a handler with
    a provider and a nil proxy, [ProxyRequest] fetches the token, panics at
    the dispatch, and still records the duration sample (if the histogram is
    acquired), with the status found on the untouched response writer, and
    closes its span; nothing reaches the backend. *)
Theorem deferred_steps_survive_panic env h f r σ :
  tokenProvider h = Some f -> proxy h = None ->
  let x := ProxyRequest env h r σ in
  result_of x = Panicked nil_dereference /\
  writer (world_of x) = writer σ /\
  dispatched (trace_of x) = [] /\
  List.filter is_token_fetch (trace_of x) = [CallGetAccessToken] /\
  duration_samples (trace_of x)
  = (if is_nil (Int64Histogram env constants.METRIC_REQUEST_DURATION_MILLISECONDS)
     then [duration_sample h (forwarded_request h (f (tp_calls σ)).1 r)
             (elapsed_ms env) (duration_status (writer σ))]
     else []) /\
  last (trace_of x) = Some (SpanEnd "ProxyRequest").
Proof.
  intros Hf Hp. cbv zeta.
  unfold ProxyRequest, ProxyRequest_forward, record_duration, checkTokenProvider,
    duration_status, duration_sample, forwarded_request, RHeader_bearer.
  rewrite Hf, Hp. unfold_M. unfold result_of, world_of, trace_of. cbn.
  destruct (f (tp_calls σ)) as [token err0]. cbn.
  destruct (overrideHeaders h); cbn;
    destruct (Int64Histogram env constants.METRIC_REQUEST_DURATION_MILLISECONDS); cbn;
    destruct (strconv.ParseInt_10_32 _) as [v [perr|]]; cbn; by repeat split.
Qed.

Lemma deferred_steps_survive_panic_witness :
  let x := ProxyRequest env_ok handler_without_proxy sample_request
             (fresh empty_writer) in
  result_of x = Panicked nil_dereference /\
  writer (world_of x) = empty_writer /\
  dispatched (trace_of x) = [] /\
  List.filter is_token_fetch (trace_of x) = [CallGetAccessToken] /\
  duration_samples (trace_of x)
  = [duration_sample handler_without_proxy
       (forwarded_request handler_without_proxy "tok" sample_request)
       7 (duration_status empty_writer)] /\
  last (trace_of x) = Some (SpanEnd "ProxyRequest").
Proof.
  apply (deferred_steps_survive_panic env_ok handler_without_proxy tp_token
           sample_request (fresh empty_writer)); reflexivity.
Defined.

(** X20. [ReadinessCheck] looks at nothing but whether the provider is nil:
    on every handler it records no sample, fetches no token and makes no
    round trip, and it leaves the count of token fetches as it was. *)
Theorem ReadinessCheck_probes_nothing h r σ :
  let x := ReadinessCheck h r σ in
  samples (trace_of x) = [] /\
  List.filter is_token_fetch (trace_of x) = [] /\
  dispatched (trace_of x) = [] /\
  tp_calls (world_of x) = tp_calls σ.
Proof.
  cbv zeta. unfold ReadinessCheck, checkTokenProvider. unfold_M.
  unfold world_of, trace_of. by destruct (tokenProvider h).
Qed.
